(** * Free Sleep integration: shallow embedding and verified properties

    The development follows the Python sources of the integration:
    [api.py] (the REST client), [coordinator.py] (the staged poll
    coordinator), [sensor.py], [cover.py], [climate.py], [number.py] and the
    service handlers of [__init__.py].

    Python values are embedded as a small dynamically typed value type,
    exceptions as an error result, and the asynchronous methods as
    computations of a state, error and trace monad: the state is the
    coordinator object together with the state of the device hub, the trace
    lists the requests sent and the records logged, in order.

    Numbers: Python integers are [Z]. A Python float is an IEEE binary64
    number: a finite one is given by its exact value in [Q], and arithmetic
    rounds as the hardware does, through the Standard Library's
    [SpecFloat] at precision 53 and exponent bound 1024, with the
    infinities and the NaN it can produce. *)

From Stdlib Require Import ZArith QArith Qabs String Ascii List Bool Lia Lqa.
From Stdlib Require Import SpecFloat.
Import ListNotations.
Open Scope string_scope.
Open Scope list_scope.
Open Scope Z_scope.

(** ** Python numbers

    A finite number, as JSON and the host hand them over: an [int], or a
    [float] that is neither an infinity nor a NaN, given by its exact
    value. *)

Inductive number : Type :=
| Int (z : Z)
| Float (q : Q).

Definition to_Q (n : number) : Q :=
  match n with
  | Int z => inject_Z z
  | Float q => q
  end.

(** Comparisons between integers and floats are exact in Python. *)
Definition num_eqb (a b : number) : bool := Qeq_bool (to_Q a) (to_Q b).
Definition num_leb (a b : number) : bool := Qle_bool (to_Q a) (to_Q b).
Definition num_ltb (a b : number) : bool := negb (Qle_bool (to_Q b) (to_Q a)).

(** [min(a, b)] keeps its first argument unless the second is strictly
    smaller; [max(a, b)] keeps the first unless the second is strictly
    greater. *)
Definition py_min (a b : number) : number := if num_ltb b a then b else a.
Definition py_max (a b : number) : number := if num_ltb a b then b else a.

(** [int(x)]: truncation toward zero. *)
Definition py_int (n : number) : Z :=
  match n with
  | Int z => z
  | Float q => Z.quot (Qnum q) (Zpos (Qden q))
  end.

(** ** Python values (the JSON fragment) *)

#[local] Unset Elimination Schemes.
Inductive value : Type :=
| VNone
| VBool (b : bool)
| VNum (n : number)
| VStr (s : string)
| VList (l : list value)
| VDict (d : list (string * value)).
#[local] Set Elimination Schemes.

Definition dict : Type := list (string * value).

Fixpoint lookup (k : string) (d : dict) : option value :=
  match d with
  | [] => None
  | (k', v) :: d' => if String.eqb k k' then Some v else lookup k d'
  end.

(** [d[k] = v]: replaces the entry when the key is there, appends it
    otherwise (insertion order is kept). *)
Fixpoint dict_set (d : dict) (k : string) (v : value) : dict :=
  match d with
  | [] => [(k, v)]
  | (k', v') :: d' =>
      if String.eqb k k' then (k, v) :: d' else (k', v') :: dict_set d' k v
  end.

(** [bool(v)] *)
Definition truthy (v : value) : bool :=
  match v with
  | VNone => false
  | VBool b => b
  | VNum n => negb (num_eqb n (Int 0))
  | VStr s => negb (String.eqb s "")
  | VList l => match l with [] => false | _ => true end
  | VDict d => match d with [] => false | _ => true end
  end.

Definition is_none (v : value) : bool :=
  match v with
  | VNone => true
  | _ => false
  end.

(** [bool] is a subclass of [int]: [True] counts as 1 in arithmetic. *)
Definition as_number (v : value) : option number :=
  match v with
  | VBool b => Some (Int (if b then 1 else 0))
  | VNum n => Some n
  | _ => None
  end.

(** [a == b] *)
Fixpoint py_eq (a b : value) : bool :=
  match a, b with
  | VNone, VNone => true
  | VStr s, VStr t => String.eqb s t
  | VList l, VList m =>
      (fix all2 (l m : list value) : bool :=
         match l, m with
         | [], [] => true
         | x :: l', y :: m' => py_eq x y && all2 l' m'
         | _, _ => false
         end) l m
  | VDict d, VDict e =>
      Nat.eqb (List.length d) (List.length e)
      && (fix sub (d : dict) : bool :=
            match d with
            | [] => true
            | (k, v) :: d' =>
                match lookup k e with
                | Some w => py_eq v w && sub d'
                | None => false
                end
            end) d
  | _, _ =>
      match as_number a, as_number b with
      | Some x, Some y => num_eqb x y
      | _, _ => false
      end
  end.

(** ** Exceptions and results

    The exceptions are those of class [Exception] that the code raises,
    catches or can meet. What is not an [Exception] (the cancellation of
    the task, an interrupt) is caught by no [except] clause of the
    integration and is left out. *)

Inductive exn : Type :=
| asyncio_TimeoutError
| aiohttp_ClientError (text : string)
| Exception (text : string)
| AttributeError
| TypeError
| ZeroDivisionError
| OverflowError (text : string)
| ValueError (text : string)
| FreeSleepApiError (text : string) (cause : exn)
| UpdateFailed (text : string) (cause : exn).

(** [str(err)] *)
Definition str (err : exn) : string :=
  match err with
  | asyncio_TimeoutError => ""
  | aiohttp_ClientError text => text
  | Exception text => text
  | AttributeError => "object has no attribute 'get'"
  | TypeError => "unsupported operand type(s)"
  | ZeroDivisionError => "division by zero"
  | OverflowError text => text
  | ValueError text => text
  | FreeSleepApiError text _ => text
  | UpdateFailed text _ => text
  end.

Inductive pyres (A : Type) : Type :=
| Ret (a : A)
| Raise (e : exn).
Arguments Ret {A} a.
Arguments Raise {A} e.

Definition is_ret {A : Type} (r : pyres A) : bool :=
  match r with
  | Ret _ => true
  | Raise _ => false
  end.

(** Sequencing of pure code that can raise. *)
Definition pbind {A B : Type} (r : pyres A) (k : A -> pyres B) : pyres B :=
  match r with
  | Ret a => k a
  | Raise e => Raise e
  end.

Notation "x <~ c1 ;; c2" := (pbind c1 (fun x => c2))
  (at level 61, c1 at next level, right associativity).

(** [d.get(key, default)]; anything but a dict has no [get]. *)
Definition py_get (d : value) (key : string) (default : value) : pyres value :=
  match d with
  | VDict d =>
      match lookup key d with
      | Some v => Ret v
      | None => Ret default
      end
  | _ => Raise AttributeError
  end.

(** ** Arithmetic

    What arithmetic gives: a finite number, or one of the values a float
    operation can overflow or degenerate to. *)
Inductive extended : Type :=
| Finite (n : number)
| Infinity (negative : bool)
| Nan.

(** The binary64 number nearest to [q], ties to even (the infinity when
    [q] is out of range): [q] itself when [q] is a binary64 number. *)
Definition binary64_of_Q (q : Q) : spec_float :=
  match Qnum q with
  | Z0 => S754_zero false
  | Zpos n =>
      SFdiv 53 1024 (S754_finite false n 0) (S754_finite false (Qden q) 0)
  | Zneg n =>
      SFdiv 53 1024 (S754_finite true n 0) (S754_finite false (Qden q) 0)
  end.

(** The value of the finite binary64 number of sign [s], mantissa [m] and
    exponent [e]. *)
Definition Q_of_binary64 (s : bool) (m : positive) (e : Z) : Q :=
  let n := if s then Zneg m else Zpos m in
  match e with
  | Z0 => n # 1
  | Zpos _ => (n * 2 ^ e) # 1
  | Zneg p => n # (2 ^ p)%positive
  end.

(** A zero reads back as 0.0 whatever its sign: nothing in the
    integration tells the two zeros apart. *)
Definition of_binary64 (f : spec_float) : extended :=
  match f with
  | S754_zero _ => Finite (Float 0)
  | S754_finite s m e => Finite (Float (Qred (Q_of_binary64 s m e)))
  | S754_infinity s => Infinity s
  | S754_nan => Nan
  end.

(** The conversion of an [int] operand that arithmetic with a float
    starts with. *)
Definition float_of_int (z : Z) : pyres spec_float :=
  match binary_normalize 53 1024 z 0 false with
  | S754_infinity _ => Raise (OverflowError "int too large to convert to float")
  | f => Ret f
  end.

Definition to_binary64 (x : extended) : pyres spec_float :=
  match x with
  | Finite (Int z) => float_of_int z
  | Finite (Float q) => Ret (binary64_of_Q q)
  | Infinity s => Ret (S754_infinity s)
  | Nan => Ret S754_nan
  end.

(** [a - b] and [a * b]: exact on two integers, binary64 arithmetic
    otherwise. *)
Definition num_sub (a b : extended) : pyres extended :=
  match a, b with
  | Finite (Int x), Finite (Int y) => Ret (Finite (Int (x - y)))
  | _, _ =>
      fa <~ to_binary64 a ;;
      fb <~ to_binary64 b ;;
      Ret (of_binary64 (SFsub 53 1024 fa fb))
  end.

Definition num_mul (a b : extended) : pyres extended :=
  match a, b with
  | Finite (Int x), Finite (Int y) => Ret (Finite (Int (x * y)))
  | _, _ =>
      fa <~ to_binary64 a ;;
      fb <~ to_binary64 b ;;
      Ret (of_binary64 (SFmul 53 1024 fa fb))
  end.

Definition is_zero (f : spec_float) : bool :=
  match f with
  | S754_zero _ => true
  | _ => false
  end.

(** [a / b]: true division, always a float. Of two integers it is the
    binary64 number nearest to the exact quotient. *)
Definition num_truediv (a b : extended) : pyres extended :=
  match a, b with
  | Finite (Int x), Finite (Int y) =>
      if y =? 0 then Raise ZeroDivisionError
      else
        match binary64_of_Q (inject_Z x / inject_Z y) with
        | S754_infinity _ =>
            Raise (OverflowError
                     "integer division result too large for a float")
        | f => Ret (of_binary64 f)
        end
  | _, _ =>
      fa <~ to_binary64 a ;;
      fb <~ to_binary64 b ;;
      if is_zero fb then Raise ZeroDivisionError
      else Ret (of_binary64 (SFdiv 53 1024 fa fb))
  end.

(** [a - b] and [a / b] on values *)
Definition py_sub (a b : value) : pyres extended :=
  match as_number a, as_number b with
  | Some x, Some y => num_sub (Finite x) (Finite y)
  | _, _ => Raise TypeError
  end.

Definition py_truediv (a b : value) : pyres extended :=
  match as_number a, as_number b with
  | Some x, Some y => num_truediv (Finite x) (Finite y)
  | _, _ => Raise TypeError
  end.

(** [a < b] and [a <= b]: exact between an integer and a float, never
    true of a NaN. *)
Definition ext_ltb (a b : extended) : bool :=
  match a, b with
  | Finite x, Finite y => num_ltb x y
  | Finite _, Infinity negative => negb negative
  | Infinity negative, Finite _ => negative
  | Infinity negative, Infinity negative' => negative && negb negative'
  | _, _ => false
  end.

Definition ext_leb (a b : extended) : bool :=
  match a, b with
  | Finite x, Finite y => num_leb x y
  | Finite _, Infinity negative => negb negative
  | Infinity negative, Finite _ => negative
  | Infinity negative, Infinity negative' => negative || negb negative'
  | _, _ => false
  end.

(** [abs(x)] *)
Definition num_abs (x : extended) : extended :=
  match x with
  | Finite (Int z) => Finite (Int (Z.abs z))
  | Finite (Float q) => Finite (Float (Qabs q))
  | Infinity _ => Infinity false
  | Nan => Nan
  end.

(** [int(x)] of what arithmetic gave *)
Definition int_of (x : extended) : pyres Z :=
  match x with
  | Finite n => Ret (py_int n)
  | Infinity _ =>
      Raise (OverflowError "cannot convert float infinity to integer")
  | Nan => Raise (ValueError "cannot convert float NaN to integer")
  end.

(** [max(low, min(high, x))]. [min(a, b)] is [b] only when [b < a] and
    [max(a, b)] is [b] only when [b > a]: [min] keeps [high] against
    the positive infinity and against a NaN, and [max] drops the negative
    infinity. *)
Definition clamp (low high : number) (x : extended) : number :=
  match x with
  | Finite n => py_max low (py_min high n)
  | Infinity false => py_max low high
  | Infinity true => low
  | Nan => py_max low high
  end.

(** [a <= b]: numbers by value, strings and lists lexicographically; any
    other pairing is a [TypeError]. *)
Fixpoint py_le (a b : value) : pyres bool :=
  match a, b with
  | VStr s, VStr t => Ret (String.leb s t)
  | VList l, VList m =>
      (fix lex (l m : list value) : pyres bool :=
         match l, m with
         | [], _ => Ret true
         | _ :: _, [] => Ret false
         | x :: l', y :: m' => if py_eq x y then lex l' m' else py_le x y
         end) l m
  | _, _ =>
      match as_number a, as_number b with
      | Some x, Some y => Ret (num_leb x y)
      | _, _ => Raise TypeError
      end
  end.

(** ** const.py *)

Definition UPDATE_INTERVAL_DEVICE_STATUS : Z := 5.
Definition UPDATE_INTERVAL_BASE_CONTROL : Z := 10.
Definition UPDATE_INTERVAL_VITALS : Z := 60.

Definition ENDPOINT_DEVICE_STATUS : string := "/api/deviceStatus".
Definition ENDPOINT_SETTINGS : string := "/api/settings".
Definition ENDPOINT_SCHEDULES : string := "/api/schedules".
Definition ENDPOINT_BASE_CONTROL : string := "/api/base-control".
Definition ENDPOINT_VITALS_SUMMARY : string := "/api/metrics/vitals/summary".


Definition SIDE_LEFT : string := "left".
Definition SIDE_RIGHT : string := "right".

Definition ATTR_TEMPERATURE : string := "temperature".

(** ** What a computation leaves behind: requests and log records *)

Inductive level : Type := DEBUG | WARNING.

(** [Exchange method endpoint data result]: one request put on the wire by
    the client, with what came back for it (the parsed payload, or the
    exception the HTTP session raised). *)
Inductive event : Type :=
| Exchange (method endpoint : string) (data : value) (result : pyres value)
| Logged (lvl : level) (message : string).

(** ** The HTTP session, as the client sees it

    A response carries its status, the text of the error that
    [raise_for_status] builds from it, and what awaiting [response.json()]
    gives: the decoded body, or the exception decoding raises. *)
Record response : Type := {
  status : Z;
  status_error : string;
  json : pyres value
}.

(** The HTTP library's [raise_for_status]: a [ClientResponseError] (a
    [ClientError]) for a status of 400 or more, nothing otherwise. *)
Definition raise_for_status (r : response) : pyres unit :=
  if 400 <=? status r then Raise (aiohttp_ClientError (status_error r))
  else Ret tt.

(** ** coordinator.py: the coordinator object

    [data] and [last_update_success] are the fields of the host's
    [DataUpdateCoordinator] base class; the other four are set by
    [__init__]. *)
Record FreeSleepDataUpdateCoordinator : Type := {
  data : value;
  last_update_success : bool;
  _vitals_counter : Z;
  _base_counter : Z;
  _settings_loaded : bool;
  _schedules_loaded : bool
}.

(** [FreeSleepDataUpdateCoordinator.__init__] *)
Definition __init__ : FreeSleepDataUpdateCoordinator := {|
  data := VNone;
  last_update_success := true;
  _vitals_counter := 0;
  _base_counter := 0;
  _settings_loaded := false;
  _schedules_loaded := false
|}.

(** Field updates of the coordinator object. *)
Definition set_data (v : value) (c : FreeSleepDataUpdateCoordinator) :=
  {| data := v;
     last_update_success := last_update_success c;
     _vitals_counter := _vitals_counter c;
     _base_counter := _base_counter c;
     _settings_loaded := _settings_loaded c;
     _schedules_loaded := _schedules_loaded c |}.

Definition set_last_update_success (b : bool) (c : FreeSleepDataUpdateCoordinator) :=
  {| data := data c;
     last_update_success := b;
     _vitals_counter := _vitals_counter c;
     _base_counter := _base_counter c;
     _settings_loaded := _settings_loaded c;
     _schedules_loaded := _schedules_loaded c |}.

Definition set_vitals_counter (n : Z) (c : FreeSleepDataUpdateCoordinator) :=
  {| data := data c;
     last_update_success := last_update_success c;
     _vitals_counter := n;
     _base_counter := _base_counter c;
     _settings_loaded := _settings_loaded c;
     _schedules_loaded := _schedules_loaded c |}.

Definition set_base_counter (n : Z) (c : FreeSleepDataUpdateCoordinator) :=
  {| data := data c;
     last_update_success := last_update_success c;
     _vitals_counter := _vitals_counter c;
     _base_counter := n;
     _settings_loaded := _settings_loaded c;
     _schedules_loaded := _schedules_loaded c |}.

Definition set_settings_loaded (b : bool) (c : FreeSleepDataUpdateCoordinator) :=
  {| data := data c;
     last_update_success := last_update_success c;
     _vitals_counter := _vitals_counter c;
     _base_counter := _base_counter c;
     _settings_loaded := b;
     _schedules_loaded := _schedules_loaded c |}.

Definition set_schedules_loaded (b : bool) (c : FreeSleepDataUpdateCoordinator) :=
  {| data := data c;
     last_update_success := last_update_success c;
     _vitals_counter := _vitals_counter c;
     _base_counter := _base_counter c;
     _settings_loaded := _settings_loaded c;
     _schedules_loaded := b |}.

(** ** Pure code *)

(** *** sensor.py *)

Definition _calculate_water_level_percentage (data : value) : pyres value :=
  device_status <~ py_get data "device_status" (VDict []) ;;
  water_raw <~ py_get device_status "waterLevelRaw" VNone ;;
  if truthy water_raw then
    raw <~ py_get water_raw "raw" VNone ;;
    calibrated_empty <~ py_get water_raw "calibratedEmpty" VNone ;;
    calibrated_full <~ py_get water_raw "calibratedFull" VNone ;;
    if negb (is_none raw) && negb (is_none calibrated_empty)
       && negb (is_none calibrated_full)
    then
      not_above <~ py_le calibrated_full calibrated_empty ;;
      if not_above then Ret VNone
      else
        above_empty <~ py_sub raw calibrated_empty ;;
        span <~ py_sub calibrated_full calibrated_empty ;;
        fraction <~ num_truediv above_empty span ;;
        percentage <~ num_mul fraction (Finite (Int 100)) ;;
        Ret (VNum (clamp (Int 0) (Int 100) percentage))
    else Ret VNone
  else Ret VNone.


(** *** cover.py: the position properties of [FreeSleepBaseCover], as
    functions of [self.coordinator.data] *)

Definition current_cover_position (data : value) : pyres value :=
  base_control <~ py_get data "base_control" VNone ;;
  if truthy base_control then
    head <~ py_get base_control "head" VNone ;;
    if truthy head then
      fraction <~ py_truediv head (VNum (Int 60)) ;;
      percentage <~ num_mul fraction (Finite (Int 100)) ;;
      position <~ int_of percentage ;;
      Ret (VNum (Int position))
    else Ret VNone
  else Ret VNone.

Definition current_cover_tilt_position (data : value) : pyres value :=
  base_control <~ py_get data "base_control" VNone ;;
  if truthy base_control then
    feet <~ py_get base_control "feet" VNone ;;
    if truthy feet then
      fraction <~ py_truediv feet (VNum (Int 45)) ;;
      percentage <~ num_mul fraction (Finite (Int 100)) ;;
      position <~ int_of percentage ;;
      Ret (VNum (Int position))
    else Ret VNone
  else Ret VNone.

(** ** The rest of the presentation layer *)

(** *** const.py, the other constants *)

Definition ENDPOINT_BASE_CONTROL_PRESET : string := "/api/base-control/preset".
Definition ENDPOINT_VERSION : string := "/api/version".
Definition ENDPOINT_SNOOZE : string := "/api/deviceStatus/snooze".
Definition ENDPOINT_DISMISS_PRIME : string :=
  "/api/deviceStatus/dismissPrimeNotification".

Definition BASE_PRESET_FLAT : string := "flat".
Definition BASE_PRESET_SLEEP : string := "sleep".
Definition BASE_PRESET_RELAX : string := "relax".
Definition BASE_PRESET_ZERO_GRAVITY : string := "zero_gravity".
Definition BASE_PRESET_ANTI_SNORE : string := "anti_snore".

Definition base_preset (head feet feed_rate : Z) : value :=
  VDict [("head", VNum (Int head)); ("feet", VNum (Int feet));
         ("feedRate", VNum (Int feed_rate))].

Definition BASE_PRESETS : dict :=
  [(BASE_PRESET_FLAT, base_preset 0 0 50);
   (BASE_PRESET_SLEEP, base_preset 10 5 50);
   (BASE_PRESET_RELAX, base_preset 30 15 50);
   (BASE_PRESET_ZERO_GRAVITY, base_preset 30 30 50);
   (BASE_PRESET_ANTI_SNORE, base_preset 20 0 50)].

(** *** More of Python *)

(** [a < b], with the cases of [py_le]. *)
Fixpoint py_lt (a b : value) : pyres bool :=
  match a, b with
  | VStr s, VStr t => Ret (String.ltb s t)
  | VList l, VList m =>
      (fix lex (l m : list value) : pyres bool :=
         match l, m with
         | [], [] => Ret false
         | [], _ :: _ => Ret true
         | _ :: _, [] => Ret false
         | x :: l', y :: m' => if py_eq x y then lex l' m' else py_lt x y
         end) l m
  | _, _ =>
      match as_number a, as_number b with
      | Some x, Some y => Ret (num_ltb x y)
      | _, _ => Raise TypeError
      end
  end.

(** [d[key]]: a missing key raises [KeyError], whose text is the quoted
    key; what is not a dict is not subscriptable by a string. *)
Definition py_subscript (d : value) (key : string) : pyres value :=
  match d with
  | VDict d =>
      match lookup key d with
      | Some v => Ret v
      | None => Raise (Exception ("'" ++ key ++ "'")%string)
      end
  | _ => Raise TypeError
  end.

(** The pattern of the read-only properties: [if x := d.get(key): ...],
    with [None] (or another default) when the walrus test fails. *)
Definition if_get {A : Type} (d : value) (key : string)
  (then_ : value -> pyres A) (else_ : pyres A) : pyres A :=
  x <~ py_get d key VNone ;;
  if truthy x then then_ x else else_.

(** *** cover.py, the state properties *)

Definition is_opening (data : value) : pyres value :=
  if_get data "base_control"
    (fun base_control => py_get base_control "isMoving" (VBool false))
    (Ret (VBool false)).

Definition is_closing (data : value) : pyres value := Ret (VBool false).

Definition is_closed (data : value) : pyres value :=
  if_get data "base_control"
    (fun base_control =>
       head <~ py_get base_control "head" (VNum (Int 0)) ;;
       feet <~ py_get base_control "feet" (VNum (Int 0)) ;;
       Ret (VBool (py_eq head (VNum (Int 0)) && py_eq feet (VNum (Int 0)))))
    (Ret (VBool true)).

(** *** climate.py, the state properties; [_side] is the entity's side *)

Inductive HVACMode : Type :=
| HVACMode_OFF
| HVACMode_HEAT
| HVACMode_COOL
| HVACMode_HEAT_COOL
| HVACMode_AUTO
| HVACMode_DRY
| HVACMode_FAN_ONLY.

Inductive HVACAction : Type :=
| HVACAction_OFF
| HVACAction_IDLE
| HVACAction_HEATING
| HVACAction_COOLING.

Definition current_temperature (_side : string) (data : value) : pyres value :=
  if_get data "device_status"
    (fun device_status =>
       if_get device_status _side
         (fun side_data => py_get side_data "currentTemperatureF" VNone)
         (Ret VNone))
    (Ret VNone).

Definition target_temperature (_side : string) (data : value) : pyres value :=
  if_get data "device_status"
    (fun device_status =>
       if_get device_status _side
         (fun side_data => py_get side_data "targetTemperatureF" VNone)
         (Ret VNone))
    (Ret VNone).

Definition hvac_mode (_side : string) (data : value) : pyres HVACMode :=
  if_get data "device_status"
    (fun device_status =>
       if_get device_status _side
         (fun side_data =>
            is_on <~ py_get side_data "isOn" VNone ;;
            if truthy is_on then Ret HVACMode_HEAT_COOL else Ret HVACMode_OFF)
         (Ret HVACMode_OFF))
    (Ret HVACMode_OFF).

Definition hvac_action (_side : string) (data : value) : pyres HVACAction :=
  if_get data "device_status"
    (fun device_status =>
       if_get device_status _side
         (fun side_data =>
            is_on <~ py_get side_data "isOn" VNone ;;
            if negb (truthy is_on) then Ret HVACAction_OFF
            else
              current <~ py_get side_data "currentTemperatureF" VNone ;;
              target <~ py_get side_data "targetTemperatureF" VNone ;;
              if negb (is_none current) && negb (is_none target) then
                difference <~ py_sub current target ;;
                if ext_ltb (num_abs difference) (Finite (Int 1))
                then Ret HVACAction_IDLE
                else
                  below <~ py_lt current target ;;
                  if below then Ret HVACAction_HEATING
                  else Ret HVACAction_COOLING
              else Ret HVACAction_OFF)
         (Ret HVACAction_OFF))
    (Ret HVACAction_OFF).

(** *** switch.py, the state properties *)

Definition FreeSleepPowerSwitch_is_on (_side : string) (data : value)
  : pyres value :=
  if_get data "device_status"
    (fun device_status =>
       if_get device_status _side
         (fun side_data => py_get side_data "isOn" (VBool false))
         (Ret (VBool false)))
    (Ret (VBool false)).

Definition FreeSleepLinkSidesSwitch_is_on (data : value) : pyres value :=
  if_get data "settings"
    (fun settings => py_get settings "linkBothSides" (VBool false))
    (Ret (VBool false)).

(** *** sensor.py and binary_sensor.py: the description tables

    Of a description, its key and its [value_fn] are kept. Most value
    functions walk [data.get(a, {}).get(b, {}).get(c)]. *)
Record description : Type := {
  key : string;
  value_fn : option (value -> pyres value)
}.

Definition SENSOR_TYPES : list description :=
  [ {| key := "water_level";
       value_fn := Some (fun data => _calculate_water_level_percentage data) |};
    {| key := "room_temperature";
       value_fn := Some (fun data =>
         a <~ py_get data "device_status" (VDict []) ;;
         b <~ py_get a "roomClimate" (VDict []) ;;
         py_get b "temperatureC" VNone) |};
    {| key := "room_humidity";
       value_fn := Some (fun data =>
         a <~ py_get data "device_status" (VDict []) ;;
         b <~ py_get a "roomClimate" (VDict []) ;;
         py_get b "humidity" VNone) |};
    {| key := "led_brightness";
       value_fn := Some (fun data =>
         a <~ py_get data "device_status" (VDict []) ;;
         b <~ py_get a "settings" (VDict []) ;;
         py_get b "ledBrightness" VNone) |};
    {| key := "current_temp_left";
       value_fn := Some (fun data =>
         a <~ py_get data "device_status" (VDict []) ;;
         b <~ py_get a "left" (VDict []) ;;
         py_get b "currentTemperatureF" VNone) |};
    {| key := "time_remaining_left";
       value_fn := Some (fun data =>
         a <~ py_get data "device_status" (VDict []) ;;
         b <~ py_get a "left" (VDict []) ;;
         py_get b "secondsRemaining" VNone) |};
    {| key := "heart_rate_left";
       value_fn := Some (fun data =>
         a <~ py_get data "vitals" (VDict []) ;;
         b <~ py_get a "left" (VDict []) ;;
         py_get b "avgHeartRate" VNone) |};
    {| key := "hrv_left";
       value_fn := Some (fun data =>
         a <~ py_get data "vitals" (VDict []) ;;
         b <~ py_get a "left" (VDict []) ;;
         py_get b "avgHRV" VNone) |};
    {| key := "breathing_rate_left";
       value_fn := Some (fun data =>
         a <~ py_get data "vitals" (VDict []) ;;
         b <~ py_get a "left" (VDict []) ;;
         py_get b "avgBreathingRate" VNone) |};
    {| key := "current_temp_right";
       value_fn := Some (fun data =>
         a <~ py_get data "device_status" (VDict []) ;;
         b <~ py_get a "right" (VDict []) ;;
         py_get b "currentTemperatureF" VNone) |};
    {| key := "time_remaining_right";
       value_fn := Some (fun data =>
         a <~ py_get data "device_status" (VDict []) ;;
         b <~ py_get a "right" (VDict []) ;;
         py_get b "secondsRemaining" VNone) |};
    {| key := "heart_rate_right";
       value_fn := Some (fun data =>
         a <~ py_get data "vitals" (VDict []) ;;
         b <~ py_get a "right" (VDict []) ;;
         py_get b "avgHeartRate" VNone) |};
    {| key := "hrv_right";
       value_fn := Some (fun data =>
         a <~ py_get data "vitals" (VDict []) ;;
         b <~ py_get a "right" (VDict []) ;;
         py_get b "avgHRV" VNone) |};
    {| key := "breathing_rate_right";
       value_fn := Some (fun data =>
         a <~ py_get data "vitals" (VDict []) ;;
         b <~ py_get a "right" (VDict []) ;;
         py_get b "avgBreathingRate" VNone) |} ].

Definition BINARY_SENSOR_TYPES : list description :=
  [ {| key := "water_level_ok";
       value_fn := Some (fun data =>
         a <~ py_get data "device_status" (VDict []) ;;
         b <~ py_get a "waterLevel" VNone ;;
         Ret (VBool (py_eq b (VStr "true")))) |};
    {| key := "is_priming";
       value_fn := Some (fun data =>
         a <~ py_get data "device_status" (VDict []) ;;
         py_get a "isPriming" (VBool false)) |};
    {| key := "prime_notification";
       value_fn := Some (fun data =>
         a <~ py_get data "device_status" (VDict []) ;;
         b <~ py_get a "primeCompletedNotification" VNone ;;
         Ret (VBool (negb (is_none b)))) |};
    {| key := "base_moving";
       value_fn := Some (fun data =>
         a <~ py_get data "base_control" (VDict []) ;;
         py_get a "isMoving" (VBool false)) |};
    {| key := "pod_on_left";
       value_fn := Some (fun data =>
         a <~ py_get data "device_status" (VDict []) ;;
         b <~ py_get a "left" (VDict []) ;;
         py_get b "isOn" (VBool false)) |};
    {| key := "alarm_vibrating_left";
       value_fn := Some (fun data =>
         a <~ py_get data "device_status" (VDict []) ;;
         b <~ py_get a "left" (VDict []) ;;
         py_get b "isAlarmVibrating" (VBool false)) |};
    {| key := "pod_on_right";
       value_fn := Some (fun data =>
         a <~ py_get data "device_status" (VDict []) ;;
         b <~ py_get a "right" (VDict []) ;;
         py_get b "isOn" (VBool false)) |};
    {| key := "alarm_vibrating_right";
       value_fn := Some (fun data =>
         a <~ py_get data "device_status" (VDict []) ;;
         b <~ py_get a "right" (VDict []) ;;
         py_get b "isAlarmVibrating" (VBool false)) |} ].

(** [FreeSleepSensor.native_value] and [FreeSleepBinarySensor.is_on]: the
    description's value function on the snapshot, [None] without one. *)
Definition native_value (entity_description : description) (data : value)
  : pyres value :=
  match value_fn entity_description with
  | Some f => f data
  | None => Ret VNone
  end.

(** *** The platforms' [async_setup_entry]: the entities each one adds,
    given the snapshot at set-up time *)

Inductive entity : Type :=
| FreeSleepBaseCover
| FreeSleepLEDBrightnessNumber
| FreeSleepTemperatureNumber (side : string)
| FreeSleepBaseHeadNumber
| FreeSleepBaseFeetNumber
| FreeSleepBaseFeedRateNumber
| FreeSleepPrimeButton
| FreeSleepSnoozeButton (side : string)
| FreeSleepDismissAlarmButton (side : string)
| FreeSleepStopBaseButton.

Definition cover_async_setup_entry (data : value) : pyres (list entity) :=
  base_control <~ py_get data "base_control" VNone ;;
  if truthy base_control then Ret [FreeSleepBaseCover] else Ret [].

Definition number_async_setup_entry (data : value) : pyres (list entity) :=
  let entities :=
    [FreeSleepLEDBrightnessNumber;
     FreeSleepTemperatureNumber SIDE_LEFT;
     FreeSleepTemperatureNumber SIDE_RIGHT] in
  base_control <~ py_get data "base_control" VNone ;;
  if truthy base_control then
    Ret (entities ++ [FreeSleepBaseHeadNumber; FreeSleepBaseFeetNumber;
                      FreeSleepBaseFeedRateNumber])
  else Ret entities.

Definition button_async_setup_entry (data : value) : pyres (list entity) :=
  let entities :=
    [FreeSleepPrimeButton;
     FreeSleepSnoozeButton SIDE_LEFT;
     FreeSleepSnoozeButton SIDE_RIGHT;
     FreeSleepDismissAlarmButton SIDE_LEFT;
     FreeSleepDismissAlarmButton SIDE_RIGHT] in
  base_control <~ py_get data "base_control" VNone ;;
  if truthy base_control then Ret (entities ++ [FreeSleepStopBaseButton])
  else Ret entities.

(** *** config_flow.py and the client's constructor: the host *)

(** The host of [validate_input]: given a scheme when it has none. *)
Definition validated_host (host : string) : string :=
  if String.prefix "http://" host || String.prefix "https://" host then host
  else ("http://" ++ host)%string.

(** [host.rstrip("/")], which [FreeSleepApiClient.__init__] keeps as
    [_host]. *)
Fixpoint rstrip_slash (host : string) : string :=
  match host with
  | EmptyString => EmptyString
  | String c rest =>
      match rstrip_slash rest with
      | EmptyString =>
          if Ascii.eqb c "/" then EmptyString else String c EmptyString
      | stripped => String c stripped
      end
  end.

(** ** Two device hubs to run the integration on

    A scripted hub answers the requests it gets with the outcomes of its
    script, in order, whatever the request, and times out once the script
    is used up. A steady hub gives the same answer to every request. *)

Definition answer (code : Z) (body : pyres value) : pyres response :=
  Ret {| status := code; status_error := "status error"; json := body |}.

Definition scripted_get (url : string) (script : list (pyres response))
  : pyres response * list (pyres response) :=
  match script with
  | [] => (Raise asyncio_TimeoutError, [])
  | r :: script' => (r, script')
  end.

Definition scripted_post (url : string) (data : value)
  (script : list (pyres response)) : pyres response * list (pyres response) :=
  scripted_get url script.

Definition steady_get (r : pyres response) (url : string) (w : unit)
  : pyres response * unit := (r, w).

Definition steady_post (r : pyres response) (url : string) (data : value)
  (w : unit) : pyres response * unit := (r, w).

(** ** The integration, over an arbitrary device hub

    [World] is the state of everything behind the HTTP session (the hub,
    the network). [session_get url] and [session_post url data] stand for
    entering [self._session.get(url)] and [self._session.post(url,
    json=data)]: each either raises or hands over a response, and moves the
    world on. [_host] is the client's base address. *)
Section Integration.

Variable World : Type.
Variable session_get : string -> World -> pyres response * World.
Variable session_post : string -> value -> World -> pyres response * World.
Variable _host : string.

Record Sys : Type := {
  coordinator : FreeSleepDataUpdateCoordinator;
  world : World
}.

(** *** The monad: state, exceptions, and the trace of events

    A raised exception keeps the state reached and the events emitted so
    far, as in Python. *)
Definition M (A : Type) : Type := Sys -> pyres A * list event * Sys.

Definition ret {A : Type} (a : A) : M A := fun s => (Ret a, [], s).

Definition raise {A : Type} (e : exn) : M A := fun s => (Raise e, [], s).

Definition bind {A B : Type} (m : M A) (k : A -> M B) : M B :=
  fun s =>
    match m s with
    | (Ret a, ev, s') => let '(r, ev', s'') := k a s' in (r, ev ++ ev', s'')
    | (Raise e, ev, s') => (Raise e, ev, s')
    end.

(** [try: m  except Exception as err: h err] *)
Definition try_except {A : Type} (m : M A) (h : exn -> M A) : M A :=
  fun s =>
    match m s with
    | (Raise e, ev, s') => let '(r, ev', s'') := h e s' in (r, ev ++ ev', s'')
    | out => out
    end.

Definition is_FreeSleepApiError (e : exn) : bool :=
  match e with
  | FreeSleepApiError _ _ => true
  | _ => false
  end.

(** [try: m  except FreeSleepApiError as err: h err]; any other exception
    passes through. *)
Definition try_except_FreeSleepApiError {A : Type} (m : M A) (h : exn -> M A)
  : M A :=
  try_except m (fun e => if is_FreeSleepApiError e then h e else raise e).

Definition lift {A : Type} (r : pyres A) : M A := fun s => (r, [], s).

Definition tell (ev : list event) : M unit := fun s => (Ret tt, ev, s).

Definition log (lvl : level) (message : string) : M unit :=
  tell [Logged lvl message].

Definition get_coordinator : M FreeSleepDataUpdateCoordinator :=
  fun s => (Ret (coordinator s), [], s).

Definition put_coordinator (c : FreeSleepDataUpdateCoordinator) : M unit :=
  fun s => (Ret tt, [], {| coordinator := c; world := world s |}).

Definition with_world (f : World -> pyres response * World) : M response :=
  fun s =>
    let '(r, w) := f (world s) in
    (r, [], {| coordinator := coordinator s; world := w |}).

Notation "x <- c1 ;; c2" := (bind c1 (fun x => c2))
  (at level 61, c1 at next level, right associativity).
Notation "c1 ;; c2" := (bind c1 (fun _ => c2))
  (at level 61, right associativity).

(** Records the exchange [m] stands for, whatever its outcome. *)
Definition exchanging (method endpoint : string) (data : value) (m : M value)
  : M value :=
  fun s =>
    let '(r, ev, s') := m s in
    (r, ev ++ [Exchange method endpoint data r], s').

(** *** api.py *)

(** [FreeSleepApiClient._request] *)
Definition _request (method endpoint : string) (data : value) : M value :=
  let url := (_host ++ endpoint)%string in
  try_except
    (if String.eqb method "GET" then
       exchanging method endpoint data
         (response <- with_world (session_get url) ;;
          lift (raise_for_status response) ;;
          lift (json response))
     else if String.eqb method "POST" then
       exchanging method endpoint data
         (response <- with_world (session_post url data) ;;
          lift (raise_for_status response) ;;
          if status response =? 204 then ret VNone
          else lift (json response))
     else ret VNone)
    (fun err =>
       match err with
       | asyncio_TimeoutError =>
           raise (FreeSleepApiError ("Timeout connecting to " ++ url)%string err)
       | aiohttp_ClientError _ =>
           raise (FreeSleepApiError
                    ("Error communicating with API: " ++ str err)%string err)
       | _ =>
           raise (FreeSleepApiError ("Unexpected error: " ++ str err)%string err)
       end).

Definition async_get_device_status : M value :=
  _request "GET" ENDPOINT_DEVICE_STATUS VNone.

Definition async_update_device_status (data : value) : M value :=
  _request "POST" ENDPOINT_DEVICE_STATUS data.

Definition async_get_settings : M value :=
  _request "GET" ENDPOINT_SETTINGS VNone.

Definition async_update_settings (data : value) : M value :=
  _request "POST" ENDPOINT_SETTINGS data.

Definition async_get_schedules : M value :=
  _request "GET" ENDPOINT_SCHEDULES VNone.

(** [side], [start_time] and [end_time] are [str | None]; an empty string
    is falsy like [None]. *)
Definition given (o : option string) : bool :=
  match o with
  | Some s => negb (String.eqb s "")
  | None => false
  end.

Definition text_of (o : option string) : string :=
  match o with
  | Some s => s
  | None => "None"
  end.

Definition async_get_vitals_summary (side start_time end_time : option string)
  : M value :=
  let params := [] in
  let params :=
    if given side then params ++ [("side=" ++ text_of side)%string]
    else params in
  let params :=
    if given start_time
    then params ++ [("startTime=" ++ text_of start_time)%string]
    else params in
  let params :=
    if given end_time
    then params ++ [("endTime=" ++ text_of end_time)%string]
    else params in
  let endpoint := ENDPOINT_VITALS_SUMMARY in
  let endpoint :=
    match params with
    | [] => endpoint
    | _ => (endpoint ++ "?" ++ String.concat "&" params)%string
    end in
  _request "GET" endpoint VNone.

Definition async_get_base_control : M value :=
  _request "GET" ENDPOINT_BASE_CONTROL VNone.

Definition async_set_base_position (head feet feed_rate : value) : M value :=
  let data := VDict [("head", head); ("feet", feet); ("feedRate", feed_rate)] in
  _request "POST" ENDPOINT_BASE_CONTROL data.

(** *** coordinator.py *)

Definition modify (f : FreeSleepDataUpdateCoordinator -> FreeSleepDataUpdateCoordinator)
  : M unit :=
  c <- get_coordinator ;; put_coordinator (f c).

(** The four optional blocks of [_async_update_data], in the order of the
    source. Each takes the snapshot [data] built so far and gives it back,
    with its own key added when its fetch went through. *)

(** Settings, on first load only (or when explicitly refreshed). *)
Definition _async_update_data_settings (data : dict) : M dict :=
  self <- get_coordinator ;;
  if negb (_settings_loaded self) then
    try_except_FreeSleepApiError
      (settings <- async_get_settings ;;
       let data := dict_set data "settings" settings in
       modify (set_settings_loaded true) ;;
       ret data)
      (fun err =>
         log DEBUG ("Could not fetch settings: " ++ str err)%string ;;
         ret data)
  else ret data.

(** Schedules, on first load only (or when explicitly refreshed). *)
Definition _async_update_data_schedules (data : dict) : M dict :=
  self <- get_coordinator ;;
  if negb (_schedules_loaded self) then
    try_except_FreeSleepApiError
      (schedules <- async_get_schedules ;;
       let data := dict_set data "schedules" schedules in
       modify (set_schedules_loaded true) ;;
       ret data)
      (fun err =>
         log DEBUG ("Could not fetch schedules: " ++ str err)%string ;;
         ret data)
  else ret data.

(** Base control, every 2nd update. *)
Definition _async_update_data_base_control (data : dict) : M dict :=
  modify (fun self => set_base_counter (_base_counter self + 1) self) ;;
  self <- get_coordinator ;;
  ratio <- lift (num_truediv (Finite (Int UPDATE_INTERVAL_BASE_CONTROL))
                             (Finite (Int UPDATE_INTERVAL_DEVICE_STATUS))) ;;
  if ext_leb ratio (Finite (Int (_base_counter self))) then
    modify (set_base_counter 0) ;;
    try_except_FreeSleepApiError
      (base_control <- async_get_base_control ;;
       ret (dict_set data "base_control" base_control))
      (fun err =>
         log DEBUG ("Could not fetch base control (may not be configured): "
                    ++ str err)%string ;;
         ret data)
  else ret data.

(** Vitals summary, every 12th update, one request per side. *)
Definition _async_update_data_vitals (data : dict) : M dict :=
  modify (fun self => set_vitals_counter (_vitals_counter self + 1) self) ;;
  self <- get_coordinator ;;
  ratio <- lift (num_truediv (Finite (Int UPDATE_INTERVAL_VITALS))
                             (Finite (Int UPDATE_INTERVAL_DEVICE_STATUS))) ;;
  if ext_leb ratio (Finite (Int (_vitals_counter self))) then
    modify (set_vitals_counter 0) ;;
    try_except_FreeSleepApiError
      (vitals_left <- async_get_vitals_summary (Some "left") None None ;;
       vitals_right <- async_get_vitals_summary (Some "right") None None ;;
       ret (dict_set data "vitals"
              (VDict [("left", vitals_left); ("right", vitals_right)])))
      (fun err =>
         log DEBUG ("Could not fetch vitals (may not be enabled): "
                    ++ str err)%string ;;
         ret data)
  else ret data.

(** [FreeSleepDataUpdateCoordinator._async_update_data]: one tick. *)
Definition _async_update_data : M value :=
  try_except_FreeSleepApiError
    (device_status <- async_get_device_status ;;
     let data := [("device_status", device_status)] in
     data <- _async_update_data_settings data ;;
     data <- _async_update_data_schedules data ;;
     data <- _async_update_data_base_control data ;;
     data <- _async_update_data_vitals data ;;
     ret (VDict data))
    (fun err =>
       raise (UpdateFailed ("Error communicating with API: " ++ str err)%string
                err)).

(** Modelled from the spec: the refresh of the host's [DataUpdateCoordinator]
    base class, which the repository inherits and does not contain. It runs
    one tick; the snapshot the tick returns replaces [data] in a single
    assignment, and a tick that raises leaves [data] as it was and marks
    the update as failed. *)
Definition async_refresh : M unit :=
  try_except
    (snapshot <- _async_update_data ;;
     modify (set_data snapshot) ;;
     modify (set_last_update_success true))
    (fun err => modify (set_last_update_success false)).

(** Modelled from the spec: [async_request_refresh] of the same base class,
    an on-demand tick (the host's debouncing of such requests is left
    out). *)
Definition async_request_refresh : M unit := async_refresh.

Definition async_refresh_settings : M unit :=
  modify (set_settings_loaded false) ;;
  async_request_refresh.

Definition async_refresh_schedules : M unit :=
  modify (set_schedules_loaded false) ;;
  async_request_refresh.

(** *** climate.py

    [_side] is the entity's side; [temperature] is
    [kwargs.get(ATTR_TEMPERATURE)], a number when the host passes it. *)
Definition async_set_temperature (_side : string) (temperature : option number)
  : M unit :=
  match temperature with
  | None => ret tt
  | Some temperature =>
      let write : M unit :=
        async_update_device_status
          (VDict [(_side,
                   VDict [("targetTemperatureF",
                           VNum (Int (py_int temperature)))])]) ;;
        async_request_refresh in
      self <- get_coordinator ;;
      settings <- lift (py_get (data self) "settings" VNone) ;;
      if truthy settings then
        side_settings <- lift (py_get settings _side VNone) ;;
        if truthy side_settings then
          away_mode <- lift (py_get side_settings "awayMode" VNone) ;;
          if truthy away_mode then
            log WARNING
              ("Cannot change temperature while " ++ _side
               ++ " side is in away mode")%string
          else write
        else write
      else write
  end.

(** *** number.py *)



(** *** __init__.py: the away-mode services

    [side] is [call.data.get("side")], a string the service schema
    requires; [away_start] and [away_return] are what [call.data.get]
    gives for the optional timestamps, [VNone] when left out. *)
Definition handle_enable_away_mode (side : string) (away_start away_return : value)
  : M unit :=
  async_update_settings
    (VDict [(side,
             VDict [("awayMode", VBool true);
                    ("awayStart", away_start);
                    ("awayReturn", away_return)])]) ;;
  async_refresh_settings.

Definition handle_disable_away_mode (side : string) : M unit :=
  async_update_settings
    (VDict [(side,
             VDict [("awayMode", VBool false);
                    ("awayStart", VNone);
                    ("awayReturn", VNone)])]) ;;
  async_refresh_settings.

(** *** api.py, the other requests *)

Definition async_update_schedules (data : value) : M value :=
  _request "POST" ENDPOINT_SCHEDULES data.

Definition async_set_base_preset (preset : value) : M value :=
  let data := VDict [("preset", preset)] in
  _request "POST" ENDPOINT_BASE_CONTROL_PRESET data.

Definition async_snooze_alarm (side : string) : M unit :=
  let data := VDict [("side", VStr side)] in
  _request "POST" ENDPOINT_SNOOZE data ;;
  ret tt.

Definition async_dismiss_prime_notification : M unit :=
  _request "POST" ENDPOINT_DISMISS_PRIME VNone ;;
  ret tt.

Definition async_get_version : M value :=
  _request "GET" ENDPOINT_VERSION VNone.

Definition async_prime_pod : M unit :=
  let data := VDict [("isPriming", VBool true)] in
  _request "POST" ENDPOINT_DEVICE_STATUS data ;;
  ret tt.

(** *** cover.py, the commands of [FreeSleepBaseCover]

    [position] and [tilt_position] are [kwargs.get(ATTR_POSITION)] and
    [kwargs.get(ATTR_TILT_POSITION)], numbers when the host passes them.
    Where the source leaves [feed_rate] to its default, the default 50 of
    [async_set_base_position] is written out. *)

Definition async_open_cover : M unit :=
  preset <- lift (py_get (VDict BASE_PRESETS) "relax" (VDict [])) ;;
  head <- lift (py_subscript preset "head") ;;
  feet <- lift (py_subscript preset "feet") ;;
  feed_rate <- lift (py_get preset "feedRate" (VNum (Int 50))) ;;
  async_set_base_position head feet feed_rate ;;
  async_request_refresh.

Definition async_close_cover : M unit :=
  async_set_base_preset (VStr BASE_PRESET_FLAT) ;;
  async_request_refresh.

Definition async_set_cover_position (position : option number) : M unit :=
  match position with
  | None => ret tt
  | Some position =>
      fraction <- lift (num_truediv (Finite position) (Finite (Int 100))) ;;
      angle <- lift (num_mul fraction (Finite (Int 60))) ;;
      angle <- lift (int_of angle) ;;
      let head := VNum (Int angle) in
      let feet := VNum (Int 0) in
      self <- get_coordinator ;;
      base_control <- lift (py_get (data self) "base_control" VNone) ;;
      feet <- (if truthy base_control
               then lift (py_get base_control "feet" (VNum (Int 0)))
               else ret feet) ;;
      async_set_base_position head feet (VNum (Int 50)) ;;
      async_request_refresh
  end.

Definition async_set_cover_tilt_position (tilt_position : option number)
  : M unit :=
  match tilt_position with
  | None => ret tt
  | Some tilt_position =>
      fraction <- lift (num_truediv (Finite tilt_position) (Finite (Int 100))) ;;
      angle <- lift (num_mul fraction (Finite (Int 45))) ;;
      angle <- lift (int_of angle) ;;
      let feet := VNum (Int angle) in
      let head := VNum (Int 0) in
      self <- get_coordinator ;;
      base_control <- lift (py_get (data self) "base_control" VNone) ;;
      head <- (if truthy base_control
               then lift (py_get base_control "head" (VNum (Int 0)))
               else ret head) ;;
      async_set_base_position head feet (VNum (Int 50)) ;;
      async_request_refresh
  end.

Definition async_open_cover_tilt : M unit :=
  async_set_cover_tilt_position (Some (Int 100)).

Definition async_close_cover_tilt : M unit :=
  async_set_cover_tilt_position (Some (Int 0)).

Definition async_stop_cover : M unit :=
  self <- get_coordinator ;;
  base_control <- lift (py_get (data self) "base_control" VNone) ;;
  if truthy base_control then
    head <- lift (py_get base_control "head" (VNum (Int 0))) ;;
    feet <- lift (py_get base_control "feet" (VNum (Int 0))) ;;
    async_set_base_position head feet (VNum (Int 50)) ;;
    async_request_refresh
  else ret tt.

(** *** climate.py, the other commands *)

Definition async_turn_on (_side : string) : M unit :=
  async_update_device_status (VDict [(_side, VDict [("isOn", VBool true)])]) ;;
  async_request_refresh.

Definition async_turn_off (_side : string) : M unit :=
  async_update_device_status (VDict [(_side, VDict [("isOn", VBool false)])]) ;;
  async_request_refresh.

Definition async_set_hvac_mode (_side : string) (hvac_mode : HVACMode)
  : M unit :=
  match hvac_mode with
  | HVACMode_OFF => async_turn_off _side
  | HVACMode_HEAT_COOL => async_turn_on _side
  | _ => ret tt
  end.

(** *** switch.py, the commands *)

Definition FreeSleepPowerSwitch_async_turn_on (_side : string) : M unit :=
  async_update_device_status (VDict [(_side, VDict [("isOn", VBool true)])]) ;;
  async_request_refresh.

Definition FreeSleepPowerSwitch_async_turn_off (_side : string) : M unit :=
  async_update_device_status (VDict [(_side, VDict [("isOn", VBool false)])]) ;;
  async_request_refresh.

Definition FreeSleepLinkSidesSwitch_async_turn_on : M unit :=
  async_update_settings (VDict [("linkBothSides", VBool true)]) ;;
  async_refresh_settings.

Definition FreeSleepLinkSidesSwitch_async_turn_off : M unit :=
  async_update_settings (VDict [("linkBothSides", VBool false)]) ;;
  async_refresh_settings.

(** *** button.py *)

Definition FreeSleepPrimeButton_async_press : M unit :=
  async_prime_pod ;;
  async_request_refresh.

Definition FreeSleepSnoozeButton_async_press (_side : string) : M unit :=
  async_snooze_alarm _side ;;
  async_request_refresh.

Definition FreeSleepDismissAlarmButton_async_press (_side : string) : M unit :=
  async_snooze_alarm _side ;;
  async_request_refresh.

Definition FreeSleepStopBaseButton_async_press : M unit :=
  self <- get_coordinator ;;
  base_control <- lift (py_get (data self) "base_control" VNone) ;;
  if truthy base_control then
    head <- lift (py_get base_control "head" (VNum (Int 0))) ;;
    feet <- lift (py_get base_control "feet" (VNum (Int 0))) ;;
    async_set_base_position head feet (VNum (Int 50)) ;;
    async_request_refresh
  else ret tt.

(** *** number.py, the other numbers *)

Definition FreeSleepLEDBrightnessNumber_async_set_native_value (value : number)
  : M unit :=
  async_update_device_status
    (VDict [("settings", VDict [("ledBrightness", VNum (Int (py_int value)))])]) ;;
  async_request_refresh.

Definition FreeSleepTemperatureNumber_async_set_native_value
    (_side : string) (value : number) : M unit :=
  async_update_device_status
    (VDict [(_side, VDict [("targetTemperatureF", VNum (Int (py_int value)))])]) ;;
  async_request_refresh.

(** *** __init__.py, the other services

    [side], [day] and [preset] are strings the service schemas require;
    [schedule] and [alarm] are the dicts they require; [call_data] is
    [call.data] for the service whose schema has an optional key. *)

Definition handle_set_schedule (side day : string) (schedule : value)
  : M unit :=
  async_update_schedules (VDict [(side, VDict [(day, schedule)])]) ;;
  async_refresh_schedules.

Definition handle_set_alarm (side day : string) (alarm : value) : M unit :=
  async_update_schedules
    (VDict [(side, VDict [(day, VDict [("alarm", alarm)])])]) ;;
  async_refresh_schedules.

Definition handle_set_base_position (call_data : dict) : M unit :=
  head <- lift (py_get (VDict call_data) "head" VNone) ;;
  feet <- lift (py_get (VDict call_data) "feet" VNone) ;;
  feed_rate <- lift (py_get (VDict call_data) "feed_rate" (VNum (Int 50))) ;;
  async_set_base_position head feet feed_rate ;;
  async_request_refresh.

Definition handle_set_base_preset (preset : string) : M unit :=
  async_set_base_preset (VStr preset) ;;
  async_request_refresh.

Definition handle_prime_pod : M unit :=
  async_prime_pod ;;
  async_request_refresh.

(** *** Runs of ticks

    What one tick did: the events it emitted and the coordinator it left. *)
Record report : Type := {
  events : list event;
  after : FreeSleepDataUpdateCoordinator
}.

(** [n] refreshes in a row, nothing else in between. *)
Fixpoint run_ticks (n : nat) (s : Sys) : list report * Sys :=
  match n with
  | O => ([], s)
  | S n' =>
      let '(_, ev, s') := async_refresh s in
      let '(reports, s'') := run_ticks n' s' in
      ({| events := ev; after := coordinator s' |} :: reports, s'')
  end.

(** *** Reading traces *)

(** The exchanges of a trace that are a GET (resp. a POST) of [endpoint]. *)
Definition is_fetch (endpoint : string) (e : event) : bool :=
  match e with
  | Exchange method ep _ _ => String.eqb method "GET" && String.eqb ep endpoint
  | Logged _ _ => false
  end.

Definition is_write (endpoint : string) (e : event) : bool :=
  match e with
  | Exchange method ep _ _ => String.eqb method "POST" && String.eqb ep endpoint
  | Logged _ _ => false
  end.

Definition fetches (endpoint : string) (ev : list event) : list event :=
  filter (is_fetch endpoint) ev.

Definition writes (endpoint : string) (ev : list event) : list event :=
  filter (is_write endpoint) ev.

(** An exchange succeeded when the session gave a payload back. *)
Definition succeeded (e : event) : bool :=
  match e with
  | Exchange _ _ _ r => is_ret r
  | Logged _ _ => false
  end.

Definition ENDPOINT_VITALS_LEFT : string :=
  (ENDPOINT_VITALS_SUMMARY ++ "?side=left")%string.
Definition ENDPOINT_VITALS_RIGHT : string :=
  (ENDPOINT_VITALS_SUMMARY ++ "?side=right")%string.

(** What the session gives for a GET of [endpoint], before [_request]
    renames the failure: the decoded payload or the raised exception. *)
Definition get_raw (endpoint : string) (w : World) : pyres value * World :=
  match session_get (_host ++ endpoint)%string w with
  | (Ret resp, w') => (_ <~ raise_for_status resp ;; json resp, w')
  | (Raise e, w') => (Raise e, w')
  end.

Definition post_raw (endpoint : string) (data : value) (w : World)
  : pyres value * World :=
  match session_post (_host ++ endpoint)%string data w with
  | (Ret resp, w') =>
      (_ <~ raise_for_status resp ;;
       if status resp =? 204 then Ret VNone else json resp, w')
  | (Raise e, w') => (Raise e, w')
  end.

(** The three [except] clauses of [_request], as a function. *)
Definition api_error (url : string) (err : exn) : exn :=
  match err with
  | asyncio_TimeoutError =>
      FreeSleepApiError ("Timeout connecting to " ++ url)%string err
  | aiohttp_ClientError _ =>
      FreeSleepApiError ("Error communicating with API: " ++ str err)%string err
  | _ => FreeSleepApiError ("Unexpected error: " ++ str err)%string err
  end.

Definition api_result (url : string) (raw : pyres value) : pyres value :=
  match raw with
  | Ret v => Ret v
  | Raise e => Raise (api_error url e)
  end.

(** The events of a run, tick after tick. *)
Definition all_events (reports : list report) : list event :=
  concat (map events reports).

(** A counter that fires when it reaches [ratio]: its next value, and
    how many times the resource it paces is fetched on that tick. *)
Definition next_counter (ratio c : Z) : Z :=
  if ratio <=? c + 1 then 0 else c + 1.

Definition due (ratio c : Z) : nat :=
  if ratio <=? c + 1 then 1%nat else 0%nat.


(** The payload of the first GET of [endpoint] in a trace, when that GET
    succeeded. *)
Definition fetched_payload (endpoint : string) (ev : list event)
  : option value :=
  match fetches endpoint ev with
  | Exchange _ _ _ (Ret payload) :: _ => Some payload
  | _ => None
  end.

(** How many of the first [n] reports are of ticks that succeeded. *)
Definition successes (n : nat) (reports : list report) : Z :=
  Z.of_nat
    (List.length
       (filter (fun r => last_update_success (after r)) (firstn n reports))).

(** [m], run from [s], is one POST of [body] to [endpoint] and, when the
    POST went through, one refresh of the coordinator changed by
    [invalidate]: a POST that fails ends [m] with the client's error,
    that exchange as its whole trace and the coordinator as it was; after
    a POST that went through, [m] returns whatever the refresh meets. *)
Definition writes_then_refreshes (m : M unit) (s : Sys) (endpoint : string)
  (body : value)
  (invalidate : FreeSleepDataUpdateCoordinator -> FreeSleepDataUpdateCoordinator)
  : Prop :=
  match post_raw endpoint body (world s) with
  | (Ret payload, w') =>
      exists ev s',
        async_refresh
          {| coordinator := invalidate (coordinator s); world := w' |}
        = (Ret tt, ev, s')
        /\ m s = (Ret tt, Exchange "POST" endpoint body (Ret payload) :: ev, s')
  | (Raise cause, w') =>
      m s = (Raise (api_error (_host ++ endpoint)%string cause),
             [Exchange "POST" endpoint body (Raise cause)],
             {| coordinator := coordinator s; world := w' |})
  end.

(** ** Properties *)

(** *** The client *)

Lemma _request_GET endpoint data s :
  _request "GET" endpoint data s =
  let '(raw, w') := get_raw endpoint (world s) in
  (api_result (_host ++ endpoint)%string raw,
   [Exchange "GET" endpoint data raw],
   {| coordinator := coordinator s; world := w' |}).
Proof.
  unfold _request, get_raw, try_except, exchanging, bind, with_world, lift, raise.
  cbn [String.eqb Ascii.eqb Bool.eqb].
  destruct (session_get _ (world s)) as [[resp|e] w']; cbn.
  - destruct (raise_for_status resp) as [[]|e]; cbn.
    + destruct (json resp) as [v|e]; cbn; [reflexivity|].
      destruct e; reflexivity.
    + destruct e; reflexivity.
  - destruct e; reflexivity.
Qed.

Lemma _request_POST endpoint data s :
  _request "POST" endpoint data s =
  let '(raw, w') := post_raw endpoint data (world s) in
  (api_result (_host ++ endpoint)%string raw,
   [Exchange "POST" endpoint data raw],
   {| coordinator := coordinator s; world := w' |}).
Proof.
  unfold _request, post_raw, try_except, exchanging, bind, with_world, lift, raise, ret.
  cbn [String.eqb Ascii.eqb Bool.eqb].
  destruct (session_post _ data (world s)) as [[resp|e] w']; cbn.
  - destruct (raise_for_status resp) as [[]|e]; cbn.
    + destruct (status resp =? 204); cbn; [reflexivity|].
      destruct (json resp) as [v|e]; cbn; [reflexivity|].
      destruct e; reflexivity.
    + destruct e; reflexivity.
  - destruct e; reflexivity.
Qed.

Lemma api_error_is_FreeSleepApiError url e :
  is_FreeSleepApiError (api_error url e) = true.
Proof. destruct e; reflexivity. Qed.

(** *** The stages of a tick, as equations over the session's answers *)

Ltac mrun :=
  cbv [try_except_FreeSleepApiError try_except bind get_coordinator modify
       put_coordinator lift ret log tell raise];
  cbn [coordinator world].

Lemma base_ratio :
  num_truediv (Finite (Int UPDATE_INTERVAL_BASE_CONTROL))
    (Finite (Int UPDATE_INTERVAL_DEVICE_STATUS))
  = Ret (Finite (Float (inject_Z 2))).
Proof. vm_compute. reflexivity. Qed.

Lemma vitals_ratio :
  num_truediv (Finite (Int UPDATE_INTERVAL_VITALS))
    (Finite (Int UPDATE_INTERVAL_DEVICE_STATUS))
  = Ret (Finite (Float (inject_Z 12))).
Proof. vm_compute. reflexivity. Qed.

Lemma num_leb_ratio n z :
  ext_leb (Finite (Float (inject_Z n))) (Finite (Int z)) = (n <=? z).
Proof.
  unfold ext_leb, num_leb, Qle_bool; cbn. now rewrite !Z.mul_1_r.
Qed.

Lemma settings_eq d c w :
  _async_update_data_settings d {| coordinator := c; world := w |} =
  if _settings_loaded c then (Ret d, [], {| coordinator := c; world := w |})
  else
    let '(raw, w') := get_raw ENDPOINT_SETTINGS w in
    match raw with
    | Ret v =>
        (Ret (dict_set d "settings" v),
         [Exchange "GET" ENDPOINT_SETTINGS VNone raw],
         {| coordinator := set_settings_loaded true c; world := w' |})
    | Raise e =>
        (Ret d,
         [Exchange "GET" ENDPOINT_SETTINGS VNone raw;
          Logged DEBUG ("Could not fetch settings: "
                        ++ str (api_error (_host ++ ENDPOINT_SETTINGS) e))%string],
         {| coordinator := c; world := w' |})
    end.
Proof.
  unfold _async_update_data_settings, async_get_settings. mrun.
  destruct (_settings_loaded c); cbn [negb]; [reflexivity|].
  rewrite _request_GET. cbn [coordinator world].
  destruct (get_raw ENDPOINT_SETTINGS w) as [[v|e] w']; cbn [api_result].
  - reflexivity.
  - rewrite api_error_is_FreeSleepApiError. reflexivity.
Qed.

Lemma schedules_eq d c w :
  _async_update_data_schedules d {| coordinator := c; world := w |} =
  if _schedules_loaded c then (Ret d, [], {| coordinator := c; world := w |})
  else
    let '(raw, w') := get_raw ENDPOINT_SCHEDULES w in
    match raw with
    | Ret v =>
        (Ret (dict_set d "schedules" v),
         [Exchange "GET" ENDPOINT_SCHEDULES VNone raw],
         {| coordinator := set_schedules_loaded true c; world := w' |})
    | Raise e =>
        (Ret d,
         [Exchange "GET" ENDPOINT_SCHEDULES VNone raw;
          Logged DEBUG ("Could not fetch schedules: "
                        ++ str (api_error (_host ++ ENDPOINT_SCHEDULES) e))%string],
         {| coordinator := c; world := w' |})
    end.
Proof.
  unfold _async_update_data_schedules, async_get_schedules. mrun.
  destruct (_schedules_loaded c); cbn [negb]; [reflexivity|].
  rewrite _request_GET. cbn [coordinator world].
  destruct (get_raw ENDPOINT_SCHEDULES w) as [[v|e] w']; cbn [api_result].
  - reflexivity.
  - rewrite api_error_is_FreeSleepApiError. reflexivity.
Qed.

Lemma base_control_eq d c w :
  _async_update_data_base_control d {| coordinator := c; world := w |} =
  if 2 <=? _base_counter c + 1 then
    let '(raw, w') := get_raw ENDPOINT_BASE_CONTROL w in
    match raw with
    | Ret v =>
        (Ret (dict_set d "base_control" v),
         [Exchange "GET" ENDPOINT_BASE_CONTROL VNone raw],
         {| coordinator := set_base_counter 0 c; world := w' |})
    | Raise e =>
        (Ret d,
         [Exchange "GET" ENDPOINT_BASE_CONTROL VNone raw;
          Logged DEBUG
            ("Could not fetch base control (may not be configured): "
             ++ str (api_error (_host ++ ENDPOINT_BASE_CONTROL) e))%string],
         {| coordinator := set_base_counter 0 c; world := w' |})
    end
  else
    (Ret d, [],
     {| coordinator := set_base_counter (_base_counter c + 1) c; world := w |}).
Proof.
  unfold _async_update_data_base_control, async_get_base_control. mrun.
  rewrite base_ratio.
  cbn [set_base_counter _base_counter]. rewrite num_leb_ratio.
  destruct (2 <=? _base_counter c + 1); [|reflexivity].
  rewrite _request_GET. cbn [coordinator world].
  destruct (get_raw ENDPOINT_BASE_CONTROL w) as [[v|e] w']; cbn [api_result].
  - reflexivity.
  - rewrite api_error_is_FreeSleepApiError. reflexivity.
Qed.

Lemma vitals_eq d c w :
  _async_update_data_vitals d {| coordinator := c; world := w |} =
  if 12 <=? _vitals_counter c + 1 then
    let '(raw_left, w1) := get_raw ENDPOINT_VITALS_LEFT w in
    match raw_left with
    | Ret vitals_left =>
        let '(raw_right, w2) := get_raw ENDPOINT_VITALS_RIGHT w1 in
        match raw_right with
        | Ret vitals_right =>
            (Ret (dict_set d "vitals"
                    (VDict [("left", vitals_left); ("right", vitals_right)])),
             [Exchange "GET" ENDPOINT_VITALS_LEFT VNone raw_left;
              Exchange "GET" ENDPOINT_VITALS_RIGHT VNone raw_right],
             {| coordinator := set_vitals_counter 0 c; world := w2 |})
        | Raise e =>
            (Ret d,
             [Exchange "GET" ENDPOINT_VITALS_LEFT VNone raw_left;
              Exchange "GET" ENDPOINT_VITALS_RIGHT VNone raw_right;
              Logged DEBUG
                ("Could not fetch vitals (may not be enabled): "
                 ++ str (api_error (_host ++ ENDPOINT_VITALS_RIGHT) e))%string],
             {| coordinator := set_vitals_counter 0 c; world := w2 |})
        end
    | Raise e =>
        (Ret d,
         [Exchange "GET" ENDPOINT_VITALS_LEFT VNone raw_left;
          Logged DEBUG
            ("Could not fetch vitals (may not be enabled): "
             ++ str (api_error (_host ++ ENDPOINT_VITALS_LEFT) e))%string],
         {| coordinator := set_vitals_counter 0 c; world := w1 |})
    end
  else
    (Ret d, [],
     {| coordinator := set_vitals_counter (_vitals_counter c + 1) c; world := w |}).
Proof.
  unfold _async_update_data_vitals, async_get_vitals_summary. mrun.
  rewrite vitals_ratio.
  cbn [set_vitals_counter _vitals_counter]. rewrite num_leb_ratio.
  destruct (12 <=? _vitals_counter c + 1); [|reflexivity].
  cbn [given negb String.eqb text_of app].
  rewrite _request_GET. cbn [coordinator world].
  change (get_raw _ w) with (get_raw ENDPOINT_VITALS_LEFT w).
  destruct (get_raw ENDPOINT_VITALS_LEFT w) as [[vl|e] w1]; cbn [api_result].
  - rewrite _request_GET. cbn [coordinator world].
    change (get_raw _ w1) with (get_raw ENDPOINT_VITALS_RIGHT w1).
    destruct (get_raw ENDPOINT_VITALS_RIGHT w1) as [[vr|e] w2]; cbn [api_result].
    + reflexivity.
    + rewrite api_error_is_FreeSleepApiError. reflexivity.
  - rewrite api_error_is_FreeSleepApiError. reflexivity.
Qed.

(** *** One tick *)

Ltac tick_step :=
  first [ rewrite settings_eq | rewrite schedules_eq
        | rewrite base_control_eq | rewrite vitals_eq ];
  cbn [set_settings_loaded set_schedules_loaded set_base_counter
       set_vitals_counter _settings_loaded _schedules_loaded _base_counter
       _vitals_counter data last_update_success].

Ltac tick_case :=
  lazymatch goal with
  | |- context [if _settings_loaded ?c then _ else _] =>
      destruct (_settings_loaded c) eqn:?
  | |- context [if _schedules_loaded ?c then _ else _] =>
      destruct (_schedules_loaded c) eqn:?
  | |- context [if ?n <=? ?x then _ else _] => destruct (n <=? x) eqn:?
  | |- context [get_raw ?endpoint ?hub] =>
      destruct (get_raw endpoint hub) as [[?v|?e] ?w]
  end;
  cbv beta iota zeta.

Lemma tick_fails c w e w' :
  get_raw ENDPOINT_DEVICE_STATUS w = (Raise e, w') ->
  _async_update_data {| coordinator := c; world := w |} =
  (Raise (UpdateFailed
            ("Error communicating with API: "
             ++ str (api_error (_host ++ ENDPOINT_DEVICE_STATUS) e))%string
            (api_error (_host ++ ENDPOINT_DEVICE_STATUS) e)),
   [Exchange "GET" ENDPOINT_DEVICE_STATUS VNone (Raise e)],
   {| coordinator := c; world := w' |}).
Proof.
  intros H. unfold _async_update_data, async_get_device_status. mrun.
  rewrite _request_GET. cbn [coordinator world]. rewrite H. cbn [api_result].
  rewrite api_error_is_FreeSleepApiError. reflexivity.
Qed.

Lemma tick_returns c w v w1 :
  get_raw ENDPOINT_DEVICE_STATUS w = (Ret v, w1) ->
  exists snapshot ev c' w',
    _async_update_data {| coordinator := c; world := w |} =
      (Ret (VDict snapshot), ev, {| coordinator := c'; world := w' |})
    /\ data c' = data c
    /\ last_update_success c' = last_update_success c
    /\ (_settings_loaded c = true ->
        fetches ENDPOINT_SETTINGS ev = [] /\ _settings_loaded c' = true)
    /\ (_settings_loaded c = false ->
        exists x, fetches ENDPOINT_SETTINGS ev = [x]
                  /\ _settings_loaded c' = succeeded x)
    /\ (_schedules_loaded c = true ->
        fetches ENDPOINT_SCHEDULES ev = [] /\ _schedules_loaded c' = true)
    /\ (_schedules_loaded c = false ->
        exists x, fetches ENDPOINT_SCHEDULES ev = [x]
                  /\ _schedules_loaded c' = succeeded x)
    /\ _base_counter c' = next_counter 2 (_base_counter c)
    /\ List.length (fetches ENDPOINT_BASE_CONTROL ev)
       = due 2 (_base_counter c)
    /\ _vitals_counter c' = next_counter 12 (_vitals_counter c)
    /\ List.length (fetches ENDPOINT_VITALS_LEFT ev)
       = due 12 (_vitals_counter c)
    /\ (List.length (fetches ENDPOINT_VITALS_RIGHT ev)
        <= due 12 (_vitals_counter c))%nat
    /\ (forall endpoint, writes endpoint ev = []).
Proof.
  intros H. unfold _async_update_data, async_get_device_status. mrun.
  rewrite _request_GET. cbn [coordinator world]. rewrite H. cbn [api_result].
  repeat first [ tick_step | tick_case ];
    do 4 eexists; (split; [reflexivity|]); unfold next_counter, due; cbn;
    repeat match goal with H : _ = _ |- _ => rewrite H end;
    repeat split; intros; try congruence; try reflexivity; auto;
    eexists; split; reflexivity.
Qed.

(** *** One refresh: a tick and the publication of its snapshot *)

Lemma refresh_fails c w e w' :
  get_raw ENDPOINT_DEVICE_STATUS w = (Raise e, w') ->
  async_refresh {| coordinator := c; world := w |} =
  (Ret tt,
   [Exchange "GET" ENDPOINT_DEVICE_STATUS VNone (Raise e)],
   {| coordinator := set_last_update_success false c; world := w' |}).
Proof.
  intros H. unfold async_refresh. mrun. rewrite (tick_fails c _ _ _ H). reflexivity.
Qed.

Lemma refresh_returns c w v w1 :
  get_raw ENDPOINT_DEVICE_STATUS w = (Ret v, w1) ->
  exists snapshot ev c' w',
    async_refresh {| coordinator := c; world := w |} =
      (Ret tt, ev, {| coordinator := c'; world := w' |})
    /\ data c' = VDict snapshot
    /\ last_update_success c' = true
    /\ (_settings_loaded c = true ->
        fetches ENDPOINT_SETTINGS ev = [] /\ _settings_loaded c' = true)
    /\ (_settings_loaded c = false ->
        exists x, fetches ENDPOINT_SETTINGS ev = [x]
                  /\ _settings_loaded c' = succeeded x)
    /\ (_schedules_loaded c = true ->
        fetches ENDPOINT_SCHEDULES ev = [] /\ _schedules_loaded c' = true)
    /\ (_schedules_loaded c = false ->
        exists x, fetches ENDPOINT_SCHEDULES ev = [x]
                  /\ _schedules_loaded c' = succeeded x)
    /\ _base_counter c' = next_counter 2 (_base_counter c)
    /\ List.length (fetches ENDPOINT_BASE_CONTROL ev)
       = due 2 (_base_counter c)
    /\ _vitals_counter c' = next_counter 12 (_vitals_counter c)
    /\ List.length (fetches ENDPOINT_VITALS_LEFT ev)
       = due 12 (_vitals_counter c)
    /\ (List.length (fetches ENDPOINT_VITALS_RIGHT ev)
        <= due 12 (_vitals_counter c))%nat
    /\ (forall endpoint, writes endpoint ev = []).
Proof.
  intros H.
  destruct (tick_returns c _ _ _ H)
    as (snapshot & ev & c' & w' & Htick & _ & _ & Hrest).
  exists snapshot, ev,
    (set_last_update_success true (set_data (VDict snapshot) c')), w'.
  split.
  - unfold async_refresh. mrun. rewrite Htick. cbn.
    now rewrite !app_nil_r.
  - cbn [set_last_update_success set_data data last_update_success
         _settings_loaded _schedules_loaded _base_counter _vitals_counter].
    auto.
Qed.

(** What any refresh does to the load-once flags, and how often it asks
    for the load-once resources. *)
Lemma refresh_load_once c w :
  exists ev c' w',
    async_refresh {| coordinator := c; world := w |} =
      (Ret tt, ev, {| coordinator := c'; world := w' |})
    /\ (_settings_loaded c = true ->
        fetches ENDPOINT_SETTINGS ev = [] /\ _settings_loaded c' = true)
    /\ (_settings_loaded c = false ->
        (fetches ENDPOINT_SETTINGS ev = [] /\ _settings_loaded c' = false)
        \/ exists x, fetches ENDPOINT_SETTINGS ev = [x]
                     /\ _settings_loaded c' = succeeded x)
    /\ (_schedules_loaded c = true ->
        fetches ENDPOINT_SCHEDULES ev = [] /\ _schedules_loaded c' = true)
    /\ (_schedules_loaded c = false ->
        (fetches ENDPOINT_SCHEDULES ev = [] /\ _schedules_loaded c' = false)
        \/ exists x, fetches ENDPOINT_SCHEDULES ev = [x]
                     /\ _schedules_loaded c' = succeeded x)
    /\ (forall endpoint, writes endpoint ev = []).
Proof.
  destruct (get_raw ENDPOINT_DEVICE_STATUS w) as [[v|e] w1] eqn:H.
  - destruct (refresh_returns c _ _ _ H)
      as (snapshot & ev & c' & w' & Hrun & _ & _ & S1 & S2 & P1 & P2 & _ & _
          & _ & _ & _ & W).
    exists ev, c', w'. repeat split; auto; intros; apply S1 || apply P1; auto.
  - rewrite (refresh_fails c _ _ _ H). do 3 eexists. split; [reflexivity|].
    cbn. repeat split; auto.
Qed.

(** On a refresh that succeeds, both counters step and say which of the
    paced resources is asked for. *)
Lemma refresh_cadence c w :
  exists ev c' w',
    async_refresh {| coordinator := c; world := w |} =
      (Ret tt, ev, {| coordinator := c'; world := w' |})
    /\ (last_update_success c' = true ->
        _base_counter c' = next_counter 2 (_base_counter c)
        /\ List.length (fetches ENDPOINT_BASE_CONTROL ev)
           = due 2 (_base_counter c)
        /\ _vitals_counter c' = next_counter 12 (_vitals_counter c)
        /\ List.length (fetches ENDPOINT_VITALS_LEFT ev)
           = due 12 (_vitals_counter c)
        /\ (List.length (fetches ENDPOINT_VITALS_RIGHT ev)
            <= due 12 (_vitals_counter c))%nat).
Proof.
  destruct (get_raw ENDPOINT_DEVICE_STATUS w) as [[v|e] w1] eqn:H.
  - destruct (refresh_returns c _ _ _ H)
      as (snapshot & ev & c' & w' & Hrun & _ & _ & _ & _ & _ & _ & B1 & B2
          & V1 & V2 & V3 & _).
    exists ev, c', w'. auto 10.
  - rewrite (refresh_fails c _ _ _ H). do 3 eexists. split; [reflexivity|].
    cbn. discriminate.
Qed.

(** *** Runs of ticks *)

Lemma fetches_app endpoint ev1 ev2 :
  fetches endpoint (ev1 ++ ev2) = fetches endpoint ev1 ++ fetches endpoint ev2.
Proof. apply filter_app. Qed.

Lemma run_ticks_S n c w :
  run_ticks (S n) {| coordinator := c; world := w |} =
  let '(_, ev, s') := async_refresh {| coordinator := c; world := w |} in
  ({| events := ev; after := coordinator s' |} :: fst (run_ticks n s'),
   snd (run_ticks n s')).
Proof.
  cbn [run_ticks]. destruct (async_refresh _) as [[r ev] s'].
  now destruct (run_ticks n s').
Qed.

Lemma run_settings_loaded n : forall c w,
  _settings_loaded c = true ->
  fetches ENDPOINT_SETTINGS
    (all_events (fst (run_ticks n {| coordinator := c; world := w |}))) = []
  /\ _settings_loaded
       (coordinator (snd (run_ticks n {| coordinator := c; world := w |})))
     = true.
Proof.
  induction n as [|n IH]; intros c w Hc; [now cbn|].
  rewrite run_ticks_S.
  destruct (refresh_load_once c w) as (ev & c' & w' & -> & S1 & _).
  destruct (S1 Hc) as [Hev Hc']. destruct (IH c' w' Hc') as [IH1 IH2].
  cbn [fst snd all_events map concat events coordinator] in *.
  rewrite fetches_app, Hev. auto.
Qed.

Lemma run_schedules_loaded n : forall c w,
  _schedules_loaded c = true ->
  fetches ENDPOINT_SCHEDULES
    (all_events (fst (run_ticks n {| coordinator := c; world := w |}))) = []
  /\ _schedules_loaded
       (coordinator (snd (run_ticks n {| coordinator := c; world := w |})))
     = true.
Proof.
  induction n as [|n IH]; intros c w Hc; [now cbn|].
  rewrite run_ticks_S.
  destruct (refresh_load_once c w) as (ev & c' & w' & -> & _ & _ & P1 & _).
  destruct (P1 Hc) as [Hev Hc']. destruct (IH c' w' Hc') as [IH1 IH2].
  cbn [fst snd all_events map concat events coordinator] in *.
  rewrite fetches_app, Hev. auto.
Qed.

Lemma run_settings_once n : forall c w x rest,
  fetches ENDPOINT_SETTINGS
    (all_events (fst (run_ticks n {| coordinator := c; world := w |})))
  = x :: rest ->
  succeeded x = true -> rest = [].
Proof.
  induction n as [|n IH]; intros c w x rest; [discriminate|].
  rewrite run_ticks_S.
  destruct (refresh_load_once c w) as (ev & c' & w' & -> & S1 & S2 & _).
  cbn [fst snd all_events map concat events coordinator].
  rewrite fetches_app. fold (all_events (fst (run_ticks n {| coordinator := c'; world := w' |}))).
  destruct (_settings_loaded c) eqn:Hc.
  - destruct (S1 eq_refl) as [Hev Hc'].
    rewrite Hev, (proj1 (run_settings_loaded n c' w' Hc')). discriminate.
  - destruct (S2 eq_refl) as [[Hev Hc']|(y & Hev & Hc')]; rewrite Hev.
    + cbn [app]. apply IH.
    + cbn [app]. intros E Hx. injection E as -> <-.
      rewrite Hx in Hc'. apply (run_settings_loaded n c' w' Hc').
Qed.

Lemma run_schedules_once n : forall c w x rest,
  fetches ENDPOINT_SCHEDULES
    (all_events (fst (run_ticks n {| coordinator := c; world := w |})))
  = x :: rest ->
  succeeded x = true -> rest = [].
Proof.
  induction n as [|n IH]; intros c w x rest; [discriminate|].
  rewrite run_ticks_S.
  destruct (refresh_load_once c w) as (ev & c' & w' & -> & _ & _ & S1 & S2 & _).
  cbn [fst snd all_events map concat events coordinator].
  rewrite fetches_app. fold (all_events (fst (run_ticks n {| coordinator := c'; world := w' |}))).
  destruct (_schedules_loaded c) eqn:Hc.
  - destruct (S1 eq_refl) as [Hev Hc'].
    rewrite Hev, (proj1 (run_schedules_loaded n c' w' Hc')). discriminate.
  - destruct (S2 eq_refl) as [[Hev Hc']|(y & Hev & Hc')]; rewrite Hev.
    + cbn [app]. apply IH.
    + cbn [app]. intros E Hx. injection E as -> <-.
      rewrite Hx in Hc'. apply (run_schedules_loaded n c' w' Hc').
Qed.

Lemma succ_mod ratio j :
  0 < ratio ->
  (j + 1) mod ratio = if ratio <=? j mod ratio + 1 then 0 else j mod ratio + 1.
Proof.
  intros H. pose proof (Z.mod_pos_bound j ratio H) as B.
  rewrite <- (Z.add_mod_idemp_l j 1 ratio) by lia.
  destruct (Z.leb_spec ratio (j mod ratio + 1)).
  - replace (j mod ratio + 1) with ratio by lia. apply Z_mod_same_full.
  - apply Z.mod_small. lia.
Qed.

Lemma next_counter_mod ratio j :
  0 < ratio -> next_counter ratio (j mod ratio) = (j + 1) mod ratio.
Proof. intros H. unfold next_counter. now rewrite succ_mod. Qed.

Lemma due_mod ratio j :
  0 < ratio ->
  due ratio (j mod ratio) = if (j + 1) mod ratio =? 0 then 1%nat else 0%nat.
Proof.
  intros H. unfold due. rewrite succ_mod by assumption.
  pose proof (Z.mod_pos_bound j ratio H) as B.
  destruct (Z.leb_spec ratio (j mod ratio + 1)); [reflexivity|].
  destruct (Z.eqb_spec (j mod ratio + 1) 0); [lia|reflexivity].
Qed.

Lemma run_cadence n : forall j c w,
  _base_counter c = j mod 2 ->
  _vitals_counter c = j mod 12 ->
  Forall (fun r => last_update_success (after r) = true)
    (fst (run_ticks n {| coordinator := c; world := w |})) ->
  forall k r,
    nth_error (fst (run_ticks n {| coordinator := c; world := w |})) k = Some r ->
    let tick := j + Z.of_nat k + 1 in
    List.length (fetches ENDPOINT_BASE_CONTROL (events r))
      = (if tick mod 2 =? 0 then 1%nat else 0%nat)
    /\ _base_counter (after r) = tick mod 2
    /\ List.length (fetches ENDPOINT_VITALS_LEFT (events r))
       = (if tick mod 12 =? 0 then 1%nat else 0%nat)
    /\ (List.length (fetches ENDPOINT_VITALS_RIGHT (events r))
        <= if (tick mod 12 =? 0)%Z then 1 else 0)%nat
    /\ _vitals_counter (after r) = tick mod 12.
Proof.
  induction n as [|n IH]; intros j c w Hb Hv Hok k r.
  - destruct k; discriminate.
  - revert Hok. rewrite run_ticks_S.
    destruct (refresh_cadence c w) as (ev & c' & w' & -> & Hstep).
    cbn [fst snd coordinator]. intros Hok.
    inversion Hok as [|r0 rs Hr0 Hrs]; subst. cbn [after] in Hr0.
    destruct (Hstep Hr0) as (B1 & B2 & V1 & V2 & V3).
    rewrite Hb in B1, B2. rewrite Hv in V1, V2, V3.
    rewrite next_counter_mod in B1, V1 by lia.
    rewrite due_mod in B2, V2, V3 by lia.
    destruct k as [|k]; cbn [nth_error].
    + intros E; injection E as <-. cbn [events after].
      rewrite Nat2Z.inj_0, Z.add_0_r. auto.
    + intros E. specialize (IH (j + 1) c' w' B1 V1 Hrs k r E).
      replace (j + Z.of_nat (S k) + 1) with (j + 1 + Z.of_nat k + 1) by lia.
      exact IH.
Qed.

(** *** The coordinator's contract *)

(** C1. On every tick, if the mandatory [device_status] fetch fails, the
    tick raises a single [UpdateFailed] that wraps the client's
    [FreeSleepApiError]; the [device_status] request is the only request of
    that tick; the tick leaves the coordinator object as it was; and the
    refresh that ran the tick does not replace the published snapshot: it
    only marks the update as failed. *)
Theorem device_status_failure_fails_tick s err ev s1 :
  async_get_device_status s = (Raise err, ev, s1) ->
  _async_update_data s =
    (Raise (UpdateFailed ("Error communicating with API: " ++ str err)%string
              err), ev, s1)
  /\ is_FreeSleepApiError err = true
  /\ (exists raw, ev = [Exchange "GET" ENDPOINT_DEVICE_STATUS VNone (Raise raw)])
  /\ coordinator s1 = coordinator s
  /\ async_refresh s =
       (Ret tt, ev,
        {| coordinator := set_last_update_success false (coordinator s);
           world := world s1 |})
  /\ data (set_last_update_success false (coordinator s)) = data (coordinator s).
Proof.
  destruct s as [c w]. unfold async_get_device_status.
  rewrite _request_GET. cbn [coordinator world].
  destruct (get_raw ENDPOINT_DEVICE_STATUS w) as [[v|e] w'] eqn:H;
    cbn [api_result]; intros E; inversion E; subst; clear E.
  rewrite (tick_fails c _ _ _ H), (refresh_fails c _ _ _ H).
  rewrite api_error_is_FreeSleepApiError.
  repeat split; eauto.
Qed.

(** C2. Over any run of ticks with no invalidation in between: once
    [_settings_loaded] (resp. [_schedules_loaded]) is true, no tick of the
    run fetches the settings (resp. the schedules) and the flag stays
    true; from any coordinator, the first settings (resp. schedules) fetch
    that succeeds is the last one of the run; and in 100 ticks of a
    freshly built coordinator whose first settings fetch succeeds, the
    settings endpoint is called exactly once. *)
Theorem load_once_resources_fetched_once :
  (forall n c w,
     _settings_loaded c = true ->
     fetches ENDPOINT_SETTINGS
       (all_events (fst (run_ticks n {| coordinator := c; world := w |}))) = []
     /\ _settings_loaded
          (coordinator (snd (run_ticks n {| coordinator := c; world := w |})))
        = true)
  /\ (forall n c w,
        _schedules_loaded c = true ->
        fetches ENDPOINT_SCHEDULES
          (all_events (fst (run_ticks n {| coordinator := c; world := w |}))) = []
        /\ _schedules_loaded
             (coordinator (snd (run_ticks n {| coordinator := c; world := w |})))
           = true)
  /\ (forall n c w x rest,
        fetches ENDPOINT_SETTINGS
          (all_events (fst (run_ticks n {| coordinator := c; world := w |})))
        = x :: rest ->
        succeeded x = true -> rest = [])
  /\ (forall n c w x rest,
        fetches ENDPOINT_SCHEDULES
          (all_events (fst (run_ticks n {| coordinator := c; world := w |})))
        = x :: rest ->
        succeeded x = true -> rest = [])
  /\ (forall w x rest,
        fetches ENDPOINT_SETTINGS
          (all_events
             (fst (run_ticks 100 {| coordinator := __init__; world := w |})))
        = x :: rest ->
        succeeded x = true ->
        List.length
          (fetches ENDPOINT_SETTINGS
             (all_events
                (fst (run_ticks 100 {| coordinator := __init__; world := w |}))))
        = 1%nat).
Proof.
  split; [exact run_settings_loaded|].
  split; [exact run_schedules_loaded|].
  split; [exact run_settings_once|].
  split; [exact run_schedules_once|].
  intros w x rest E Hx. rewrite E.
  now rewrite (run_settings_once _ _ _ _ _ E Hx).
Qed.

(** C3. From a freshly built coordinator, over a run of ticks that all
    succeed, tick number [k + 1] fetches [base_control] exactly when it is
    a multiple of 2 and starts the vitals fetch exactly when it is a
    multiple of 12 (no vitals request at all on the other ticks); after
    that tick the base counter is [(k + 1) mod 2] and the vitals counter
    [(k + 1) mod 12], so each is back to 0 on the tick it fires. *)
Theorem paced_resources_cadence n w :
  let reports :=
    fst (run_ticks n {| coordinator := __init__; world := w |}) in
  Forall (fun r => last_update_success (after r) = true) reports ->
  forall k r,
    nth_error reports k = Some r ->
    let tick := Z.of_nat k + 1 in
    List.length (fetches ENDPOINT_BASE_CONTROL (events r))
      = (if tick mod 2 =? 0 then 1%nat else 0%nat)
    /\ _base_counter (after r) = tick mod 2
    /\ List.length (fetches ENDPOINT_VITALS_LEFT (events r))
       = (if tick mod 12 =? 0 then 1%nat else 0%nat)
    /\ (List.length (fetches ENDPOINT_VITALS_RIGHT (events r))
        <= if (tick mod 12 =? 0)%Z then 1 else 0)%nat
    /\ _vitals_counter (after r) = tick mod 12.
Proof.
  intros reports Hok k r Hr.
  apply (run_cadence n 0 __init__ w eq_refl eq_refl Hok k r Hr).
Qed.


(** *** Writes: one POST, then a refresh *)




(** *** Command dispatch *)

(** C5. Setting a temperature on a side whose entry in the settings of the
    last snapshot has [awayMode] true sends no request at all and leaves
    the coordinator (snapshot, flags, counters) and the device as they
    were; all it does is log one warning. *)
Theorem set_temperature_in_away_mode_is_local
    _side temperature c w d settings side_settings :
  data c = VDict d ->
  lookup "settings" d = Some (VDict settings) ->
  lookup _side settings = Some (VDict side_settings) ->
  lookup "awayMode" side_settings = Some (VBool true) ->
  async_set_temperature _side (Some temperature)
    {| coordinator := c; world := w |} =
  (Ret tt,
   [Logged WARNING
      ("Cannot change temperature while " ++ _side
       ++ " side is in away mode")%string],
   {| coordinator := c; world := w |}).
Proof.
  intros Hd Hs Hside Haway. unfold async_set_temperature. mrun.
  rewrite Hd. cbn [py_get]. rewrite Hs.
  destruct settings as [|entry settings]; [discriminate|].
  cbn [truthy py_get]. rewrite Hside.
  destruct side_settings as [|entry' side_settings]; [discriminate|].
  cbn [truthy py_get]. rewrite Haway. reflexivity.
Qed.





(** *** The client's contract *)

(** C8, as the code has it. A POST answered with status 204 yields [None]
    and its body is never decoded. The answer to a GET, and to a POST
    with any other status below 400, is decoded whatever its status: the
    result is the decoded payload, or a [FreeSleepApiError] when decoding
    raises. An answer with a status of 400 or more and an exception raised
    by the session (a timeout, a [ClientError], anything else) come out as
    a [FreeSleepApiError] too, whose text names the cause and whose cause
    is the exception itself: what the session or the decoding raises is
    never handed on as it is. *)
Theorem request_outcomes endpoint data s :
  let url := (_host ++ endpoint)%string in
  (forall resp w',
     session_post url data (world s) = (Ret resp, w') ->
     status resp = 204 ->
     _request "POST" endpoint data s =
       (Ret VNone, [Exchange "POST" endpoint data (Ret VNone)],
        {| coordinator := coordinator s; world := w' |}))
  /\ (forall resp w',
        session_get url (world s) = (Ret resp, w') ->
        status resp < 400 ->
        (forall payload,
           json resp = Ret payload ->
           fst (fst (_request "GET" endpoint data s)) = Ret payload)
        /\ (forall e,
              json resp = Raise e ->
              fst (fst (_request "GET" endpoint data s))
              = Raise (api_error url e)))
  /\ (forall resp w',
        session_post url data (world s) = (Ret resp, w') ->
        status resp < 400 ->
        status resp <> 204 ->
        (forall payload,
           json resp = Ret payload ->
           fst (fst (_request "POST" endpoint data s)) = Ret payload)
        /\ (forall e,
              json resp = Raise e ->
              fst (fst (_request "POST" endpoint data s))
              = Raise (api_error url e)))
  /\ (forall resp w',
        session_get url (world s) = (Ret resp, w') ->
        400 <= status resp ->
        fst (fst (_request "GET" endpoint data s)) =
          Raise (FreeSleepApiError
                   ("Error communicating with API: " ++ status_error resp)%string
                   (aiohttp_ClientError (status_error resp))))
  /\ (forall resp w',
        session_post url data (world s) = (Ret resp, w') ->
        400 <= status resp ->
        fst (fst (_request "POST" endpoint data s)) =
          Raise (FreeSleepApiError
                   ("Error communicating with API: " ++ status_error resp)%string
                   (aiohttp_ClientError (status_error resp))))
  /\ (forall e w',
        session_get url (world s) = (Raise e, w') ->
        fst (fst (_request "GET" endpoint data s)) = Raise (api_error url e))
  /\ (forall e w',
        session_post url data (world s) = (Raise e, w') ->
        fst (fst (_request "POST" endpoint data s)) = Raise (api_error url e))
  /\ api_error url asyncio_TimeoutError =
       FreeSleepApiError ("Timeout connecting to " ++ url)%string
         asyncio_TimeoutError
  /\ (forall text,
        api_error url (aiohttp_ClientError text) =
          FreeSleepApiError ("Error communicating with API: " ++ text)%string
            (aiohttp_ClientError text))
  /\ (forall e,
        e <> asyncio_TimeoutError ->
        (forall text, e <> aiohttp_ClientError text) ->
        api_error url e =
          FreeSleepApiError ("Unexpected error: " ++ str e)%string e).
Proof.
  intros url. repeat split.
  - intros resp w' E Hs. rewrite _request_POST. unfold post_raw.
    fold url. rewrite E. unfold raise_for_status. rewrite Hs. reflexivity.
  - intros payload Hj. rewrite _request_GET. unfold get_raw.
    fold url. rewrite H. unfold raise_for_status.
    destruct (Z.leb_spec 400 (status resp)); [lia|].
    cbn [pbind fst]. now rewrite Hj.
  - intros e Hj. rewrite _request_GET. unfold get_raw.
    fold url. rewrite H. unfold raise_for_status.
    destruct (Z.leb_spec 400 (status resp)); [lia|].
    cbn [pbind fst]. now rewrite Hj.
  - intros payload Hj. rewrite _request_POST. unfold post_raw.
    fold url. rewrite H. unfold raise_for_status.
    destruct (Z.leb_spec 400 (status resp)); [lia|].
    destruct (Z.eqb_spec (status resp) 204); [contradiction|].
    cbn [pbind fst]. now rewrite Hj.
  - intros e Hj. rewrite _request_POST. unfold post_raw.
    fold url. rewrite H. unfold raise_for_status.
    destruct (Z.leb_spec 400 (status resp)); [lia|].
    destruct (Z.eqb_spec (status resp) 204); [contradiction|].
    cbn [pbind fst]. now rewrite Hj.
  - intros resp w' E Hs. rewrite _request_GET. unfold get_raw.
    fold url. rewrite E. unfold raise_for_status.
    destruct (Z.leb_spec 400 (status resp)); [reflexivity|lia].
  - intros resp w' E Hs. rewrite _request_POST. unfold post_raw.
    fold url. rewrite E. unfold raise_for_status.
    destruct (Z.leb_spec 400 (status resp)); [reflexivity|lia].
  - intros e w' E. rewrite _request_GET. unfold get_raw.
    fold url. rewrite E. reflexivity.
  - intros e w' E. rewrite _request_POST. unfold post_raw.
    fold url. rewrite E. reflexivity.
  - intros e Ht Hc. destruct e; try reflexivity.
    + contradiction.
    + exfalso. exact (Hc text eq_refl).
Qed.

(** ** More properties of the coordinator *)

Lemma tick_snapshot c w v w1 :
  get_raw ENDPOINT_DEVICE_STATUS w = (Ret v, w1) ->
  exists snapshot ev s',
    _async_update_data {| coordinator := c; world := w |} =
      (Ret (VDict snapshot), ev, s')
    /\ fetched_payload ENDPOINT_DEVICE_STATUS ev = Some v
    /\ lookup "device_status" snapshot = Some v
    /\ lookup "settings" snapshot = fetched_payload ENDPOINT_SETTINGS ev
    /\ lookup "schedules" snapshot = fetched_payload ENDPOINT_SCHEDULES ev
    /\ lookup "base_control" snapshot
       = fetched_payload ENDPOINT_BASE_CONTROL ev
    /\ lookup "vitals" snapshot
       = match fetched_payload ENDPOINT_VITALS_LEFT ev,
               fetched_payload ENDPOINT_VITALS_RIGHT ev with
         | Some vitals_left, Some vitals_right =>
             Some (VDict [("left", vitals_left); ("right", vitals_right)])
         | _, _ => None
         end
    /\ List.length (fetches ENDPOINT_VITALS_RIGHT ev)
       = match fetched_payload ENDPOINT_VITALS_LEFT ev with
         | Some _ => 1%nat
         | None => 0%nat
         end.
Proof.
  intros H. unfold _async_update_data, async_get_device_status. mrun.
  rewrite _request_GET. cbn [coordinator world]. rewrite H. cbn [api_result].
  repeat first [ tick_step | tick_case ];
    do 3 eexists; (split; [reflexivity|]); cbn; repeat split; reflexivity.
Qed.

Lemma device_status_outcome c w :
  async_get_device_status {| coordinator := c; world := w |} =
  let '(raw, w') := get_raw ENDPOINT_DEVICE_STATUS w in
  (api_result (_host ++ ENDPOINT_DEVICE_STATUS)%string raw,
   [Exchange "GET" ENDPOINT_DEVICE_STATUS VNone raw],
   {| coordinator := c; world := w' |}).
Proof. unfold async_get_device_status. now rewrite _request_GET. Qed.

(** X1. Only the device status can fail a tick: a tick returns a snapshot
    exactly when its [device_status] request succeeds, whatever becomes of
    the settings, schedules, base-control and vitals requests; and the
    refresh records that outcome in [last_update_success]. *)
Theorem tick_returns_iff_device_status_does s :
  is_ret (fst (fst (_async_update_data s)))
  = is_ret (fst (fst (async_get_device_status s)))
  /\ last_update_success (coordinator (snd (async_refresh s)))
     = is_ret (fst (fst (async_get_device_status s))).
Proof.
  destruct s as [c w]. rewrite device_status_outcome.
  destruct (get_raw ENDPOINT_DEVICE_STATUS w) as [[v|e] w1] eqn:H.
  - destruct (tick_returns c _ _ _ H) as (snapshot & ev & c' & w' & -> & _).
    destruct (refresh_returns c _ _ _ H)
      as (snapshot' & ev' & c'' & w'' & -> & _ & Hok & _).
    cbn. now rewrite Hok.
  - rewrite (tick_fails c _ _ _ H), (refresh_fails c _ _ _ H).
    split; reflexivity.
Qed.

(** X2. The snapshot of a tick holds what that very tick fetched, and
    nothing carried over: [device_status] is the payload just fetched;
    [settings], [schedules] and [base_control] are there exactly when this
    tick fetched them with success; [vitals] is there exactly when both
    sides were fetched with success, the right side being asked for only
    after the left side answered. *)
Theorem snapshot_holds_what_the_tick_fetched s result ev s' :
  _async_update_data s = (Ret result, ev, s') ->
  exists snapshot,
    result = VDict snapshot
    /\ (exists device_status,
          fetched_payload ENDPOINT_DEVICE_STATUS ev = Some device_status
          /\ lookup "device_status" snapshot = Some device_status)
    /\ lookup "settings" snapshot = fetched_payload ENDPOINT_SETTINGS ev
    /\ lookup "schedules" snapshot = fetched_payload ENDPOINT_SCHEDULES ev
    /\ lookup "base_control" snapshot
       = fetched_payload ENDPOINT_BASE_CONTROL ev
    /\ lookup "vitals" snapshot
       = match fetched_payload ENDPOINT_VITALS_LEFT ev,
               fetched_payload ENDPOINT_VITALS_RIGHT ev with
         | Some vitals_left, Some vitals_right =>
             Some (VDict [("left", vitals_left); ("right", vitals_right)])
         | _, _ => None
         end
    /\ List.length (fetches ENDPOINT_VITALS_RIGHT ev)
       = match fetched_payload ENDPOINT_VITALS_LEFT ev with
         | Some _ => 1%nat
         | None => 0%nat
         end.
Proof.
  destruct s as [c w]. intros E.
  destruct (get_raw ENDPOINT_DEVICE_STATUS w) as [[v|e] w1] eqn:H.
  - destruct (tick_snapshot c _ _ _ H)
      as (snapshot & ev0 & s0 & E0 & F & D & rest).
    rewrite E0 in E. injection E as <- <- <-.
    exists snapshot. split; [reflexivity|]. split; [eauto|exact rest].
  - rewrite (tick_fails c _ _ _ H) in E. discriminate.
Qed.

Lemma refresh_publishes c w v w1 :
  get_raw ENDPOINT_DEVICE_STATUS w = (Ret v, w1) ->
  exists snapshot ev c' w',
    _async_update_data {| coordinator := c; world := w |} =
      (Ret (VDict snapshot), ev, {| coordinator := c'; world := w' |})
    /\ async_refresh {| coordinator := c; world := w |} =
         (Ret tt, ev,
          {| coordinator :=
               set_last_update_success true (set_data (VDict snapshot) c');
             world := w' |}).
Proof.
  intros H.
  destruct (tick_returns c _ _ _ H) as (snapshot & ev & c' & w' & E & _).
  exists snapshot, ev, c', w'. split; [exact E|].
  unfold async_refresh. mrun. rewrite E. cbn. now rewrite !app_nil_r.
Qed.

(** What a refresh publishes when the load-once resources were loaded
    before it, and when the base counter was at 0. *)
Lemma refresh_snapshot_keys c w :
  last_update_success
    (coordinator (snd (async_refresh {| coordinator := c; world := w |})))
  = true ->
  exists snapshot,
    data (coordinator (snd (async_refresh {| coordinator := c; world := w |})))
    = VDict snapshot
    /\ (_settings_loaded c = true -> lookup "settings" snapshot = None)
    /\ (_schedules_loaded c = true -> lookup "schedules" snapshot = None)
    /\ (_base_counter c = 0 -> lookup "base_control" snapshot = None)
    /\ (_vitals_counter c + 1 < 12 -> lookup "vitals" snapshot = None).
Proof.
  destruct (get_raw ENDPOINT_DEVICE_STATUS w) as [[v|e] w1] eqn:H.
  - destruct (refresh_publishes c _ _ _ H)
      as (snapshot & ev & c' & w' & Etick & ->).
    destruct (tick_returns c _ _ _ H)
      as (snapshot1 & ev1 & c1 & w1' & E1 & _ & _ & S1 & _ & P1 & _ & _ & B
          & _ & V & _).
    destruct (tick_snapshot c _ _ _ H)
      as (snapshot2 & ev2 & s2 & E2 & _ & _ & KS & KP & KB & KV & _).
    rewrite Etick in E1, E2.
    injection E1 as <- <- <- <-. injection E2 as <- <- <-.
    intros _. exists snapshot. cbn. split; [reflexivity|].
    unfold fetched_payload in *. repeat split.
    + intros L. now rewrite KS, (proj1 (S1 L)).
    + intros L. now rewrite KP, (proj1 (P1 L)).
    + intros L. rewrite L in B. unfold due in B. cbn in B.
      rewrite KB. now destruct (fetches ENDPOINT_BASE_CONTROL ev).
    + intros L. unfold due in V.
      destruct (Z.leb_spec 12 (_vitals_counter c + 1)); [lia|].
      rewrite KV. now destruct (fetches ENDPOINT_VITALS_LEFT ev).
  - rewrite (refresh_fails c _ _ _ H). cbn. discriminate.
Qed.

(** X3. Once the settings (resp. the schedules) are loaded, they are gone
    from every later snapshot: a refresh that succeeds from a coordinator
    whose loaded flag is set publishes a snapshot without the [settings]
    (resp. [schedules]) key. The link-sides switch, which reads the
    settings of the snapshot, then reads off whatever the hub's setting
    is. *)
Theorem loaded_resources_leave_the_snapshot c w :
  let s' := snd (async_refresh {| coordinator := c; world := w |}) in
  last_update_success (coordinator s') = true ->
  exists snapshot,
    data (coordinator s') = VDict snapshot
    /\ (_settings_loaded c = true ->
        lookup "settings" snapshot = None
        /\ FreeSleepLinkSidesSwitch_is_on (data (coordinator s'))
           = Ret (VBool false))
    /\ (_schedules_loaded c = true -> lookup "schedules" snapshot = None).
Proof.
  intros s' Hok. subst s'.
  destruct (refresh_snapshot_keys c w Hok) as (snapshot & E & KS & KP & _).
  exists snapshot. split; [exact E|]. split; [|exact KP].
  intros L. split; [exact (KS L)|].
  rewrite E. unfold FreeSleepLinkSidesSwitch_is_on, if_get.
  cbn [py_get pbind]. now rewrite (KS L).
Qed.

(** X4. The first refresh of a new coordinator never fetches the base
    control (its counter only reaches 1) nor the vitals, so the snapshot
    the platforms are set up from has neither key: the cover platform adds
    no entity, and the number and button platforms add none of their base
    entities, whatever the hub would have answered. *)
Theorem first_refresh_sets_up_no_base_entity w :
  let s1 := snd (async_refresh {| coordinator := __init__; world := w |}) in
  last_update_success (coordinator s1) = true ->
  cover_async_setup_entry (data (coordinator s1)) = Ret []
  /\ number_async_setup_entry (data (coordinator s1))
     = Ret [FreeSleepLEDBrightnessNumber;
            FreeSleepTemperatureNumber SIDE_LEFT;
            FreeSleepTemperatureNumber SIDE_RIGHT]
  /\ button_async_setup_entry (data (coordinator s1))
     = Ret [FreeSleepPrimeButton;
            FreeSleepSnoozeButton SIDE_LEFT;
            FreeSleepSnoozeButton SIDE_RIGHT;
            FreeSleepDismissAlarmButton SIDE_LEFT;
            FreeSleepDismissAlarmButton SIDE_RIGHT]
  /\ exists snapshot,
       data (coordinator s1) = VDict snapshot
       /\ lookup "base_control" snapshot = None
       /\ lookup "vitals" snapshot = None.
Proof.
  intros s1 Hok. subst s1.
  destruct (refresh_snapshot_keys __init__ w Hok)
    as (snapshot & E & _ & _ & KB & KV).
  specialize (KB eq_refl). specialize (KV eq_refl).
  rewrite E.
  unfold cover_async_setup_entry, number_async_setup_entry,
    button_async_setup_entry.
  cbn [py_get pbind]. rewrite KB. cbn [truthy pbind].
  repeat split; eauto.
Qed.

Lemma refresh_counts c w :
  exists ev c' w',
    async_refresh {| coordinator := c; world := w |} =
      (Ret tt, ev, {| coordinator := c'; world := w' |})
    /\ ((last_update_success c' = true
         /\ _base_counter c' = next_counter 2 (_base_counter c)
         /\ List.length (fetches ENDPOINT_BASE_CONTROL ev)
            = due 2 (_base_counter c)
         /\ _vitals_counter c' = next_counter 12 (_vitals_counter c)
         /\ List.length (fetches ENDPOINT_VITALS_LEFT ev)
            = due 12 (_vitals_counter c))
        \/ (last_update_success c' = false
            /\ _base_counter c' = _base_counter c
            /\ _vitals_counter c' = _vitals_counter c
            /\ fetches ENDPOINT_BASE_CONTROL ev = []
            /\ fetches ENDPOINT_VITALS_LEFT ev = [])).
Proof.
  destruct (get_raw ENDPOINT_DEVICE_STATUS w) as [[v|e] w1] eqn:H.
  - destruct (refresh_returns c _ _ _ H)
      as (snapshot & ev & c' & w' & Hrun & _ & Hok & _ & _ & _ & _ & B1 & B2
          & V1 & V2 & _).
    exists ev, c', w'. split; [exact Hrun|]. left. auto.
  - rewrite (refresh_fails c _ _ _ H). do 3 eexists. split; [reflexivity|].
    right. cbn. auto.
Qed.

Lemma successes_cons k r0 rs :
  successes (S k) (r0 :: rs)
  = (if last_update_success (after r0) then 1 else 0) + successes k rs.
Proof.
  unfold successes. cbn [firstn filter].
  destruct (last_update_success (after r0)); cbn [List.length]; lia.
Qed.

Lemma successes_0 rs : successes 0 rs = 0.
Proof. reflexivity. Qed.

Lemma run_counts n : forall j c w,
  _base_counter c = j mod 2 ->
  _vitals_counter c = j mod 12 ->
  forall k r,
    nth_error (fst (run_ticks n {| coordinator := c; world := w |})) k = Some r ->
    let m :=
      j + successes (S k)
            (fst (run_ticks n {| coordinator := c; world := w |})) in
    _base_counter (after r) = m mod 2
    /\ _vitals_counter (after r) = m mod 12
    /\ (if last_update_success (after r)
        then List.length (fetches ENDPOINT_BASE_CONTROL (events r))
             = (if m mod 2 =? 0 then 1%nat else 0%nat)
             /\ List.length (fetches ENDPOINT_VITALS_LEFT (events r))
                = (if m mod 12 =? 0 then 1%nat else 0%nat)
        else fetches ENDPOINT_BASE_CONTROL (events r) = []
             /\ fetches ENDPOINT_VITALS_LEFT (events r) = []).
Proof.
  induction n as [|n IH]; intros j c w Hb Hv k r.
  - destruct k; discriminate.
  - rewrite run_ticks_S.
    destruct (refresh_counts c w) as (ev & c' & w' & -> & Hstep).
    cbn [fst snd coordinator].
    destruct k as [|k]; cbn [nth_error].
    + intros E; injection E as <-. cbn zeta.
      rewrite successes_cons, successes_0. cbn [events after].
      destruct Hstep as [(Hok & B1 & B2 & V1 & V2)|(Hok & B1 & V1 & B2 & V2)];
        rewrite Hok.
      * rewrite Hb in B1, B2. rewrite Hv in V1, V2.
        rewrite next_counter_mod in B1, V1 by lia.
        rewrite due_mod in B2, V2 by lia.
        replace (j + (1 + 0)) with (j + 1) by lia. auto.
      * replace (j + (0 + 0)) with j by lia.
        rewrite B1, V1. auto.
    + intros E. cbn zeta. rewrite successes_cons. cbn [after].
      set (b := if last_update_success c' then 1 else 0).
      assert (Hb' : _base_counter c' = (j + b) mod 2).
      { subst b.
        destruct Hstep as [(Hok & B1 & _ & _)|(Hok & B1 & _)]; rewrite Hok.
        - rewrite B1, Hb. apply next_counter_mod. lia.
        - rewrite B1, Hb. f_equal. lia. }
      assert (Hv' : _vitals_counter c' = (j + b) mod 12).
      { subst b.
        destruct Hstep as [(Hok & _ & _ & V1 & _)|(Hok & _ & V1 & _)];
          rewrite Hok.
        - rewrite V1, Hv. apply next_counter_mod. lia.
        - rewrite V1, Hv. f_equal. lia. }
      specialize (IH (j + b) c' w' Hb' Hv' k r E). cbn zeta in IH.
      replace (j + (b + successes (S k) (fst (run_ticks n {| coordinator := c'; world := w' |}))))
        with (j + b + successes (S k) (fst (run_ticks n {| coordinator := c'; world := w' |})))
        by lia.
      exact IH.
Qed.

(** X5. Failed ticks do not count: over any run of ticks of a new
    coordinator, after each tick the base counter is the number of ticks
    that succeeded so far modulo 2 and the vitals counter that number
    modulo 12; a tick that succeeds asks for the base control (resp. starts
    on the vitals) exactly when that number is a multiple of 2 (resp. of
    12), and a tick that fails asks for neither. *)
Theorem paced_resources_follow_successful_ticks n w k r :
  let reports :=
    fst (run_ticks n {| coordinator := __init__; world := w |}) in
  nth_error reports k = Some r ->
  let m := successes (S k) reports in
  _base_counter (after r) = m mod 2
  /\ _vitals_counter (after r) = m mod 12
  /\ (if last_update_success (after r)
      then List.length (fetches ENDPOINT_BASE_CONTROL (events r))
           = (if m mod 2 =? 0 then 1%nat else 0%nat)
           /\ List.length (fetches ENDPOINT_VITALS_LEFT (events r))
              = (if m mod 12 =? 0 then 1%nat else 0%nat)
      else fetches ENDPOINT_BASE_CONTROL (events r) = []
           /\ fetches ENDPOINT_VITALS_LEFT (events r) = []).
Proof.
  intros reports Hr.
  exact (run_counts n 0 __init__ w eq_refl eq_refl k r Hr).
Qed.

(** X6. An invalidation clears the flag and runs a refresh. After
    [async_refresh_settings] the settings count as loaded exactly when that
    refresh fetched them with success: it asks for them once when the
    device status answers, and not at all when the device status fails, in
    which case the flag stays cleared for the next tick. The same holds of
    [async_refresh_schedules]. *)
Theorem invalidation_reloads_on_the_next_successful_tick c w :
  (exists ev s',
     async_refresh_settings {| coordinator := c; world := w |} = (Ret tt, ev, s')
     /\ ((fetches ENDPOINT_SETTINGS ev = []
          /\ _settings_loaded (coordinator s') = false)
         \/ exists x, fetches ENDPOINT_SETTINGS ev = [x]
                      /\ _settings_loaded (coordinator s') = succeeded x)
     /\ (is_ret (fst (get_raw ENDPOINT_DEVICE_STATUS w)) = true ->
         List.length (fetches ENDPOINT_SETTINGS ev) = 1%nat)
     /\ (is_ret (fst (get_raw ENDPOINT_DEVICE_STATUS w)) = false ->
         fetches ENDPOINT_SETTINGS ev = []))
  /\ (exists ev s',
        async_refresh_schedules {| coordinator := c; world := w |}
        = (Ret tt, ev, s')
        /\ ((fetches ENDPOINT_SCHEDULES ev = []
             /\ _schedules_loaded (coordinator s') = false)
            \/ exists x, fetches ENDPOINT_SCHEDULES ev = [x]
                         /\ _schedules_loaded (coordinator s') = succeeded x)
        /\ (is_ret (fst (get_raw ENDPOINT_DEVICE_STATUS w)) = true ->
            List.length (fetches ENDPOINT_SCHEDULES ev) = 1%nat)
        /\ (is_ret (fst (get_raw ENDPOINT_DEVICE_STATUS w)) = false ->
            fetches ENDPOINT_SCHEDULES ev = [])).
Proof.
  split.
  - unfold async_refresh_settings, async_request_refresh. mrun.
    destruct (get_raw ENDPOINT_DEVICE_STATUS w) as [[v|e] w1] eqn:H.
    + destruct (refresh_returns (set_settings_loaded false c) _ _ _ H)
        as (snapshot & ev & c' & w' & -> & _ & _ & _ & S2 & _).
      destruct (S2 eq_refl) as (x & Hx & Hl).
      exists ev, {| coordinator := c'; world := w' |}.
      cbn. rewrite Hx. repeat split; eauto; discriminate.
    + rewrite (refresh_fails (set_settings_loaded false c) _ _ _ H).
      do 2 eexists. cbn. repeat split; auto; discriminate.
  - unfold async_refresh_schedules, async_request_refresh. mrun.
    destruct (get_raw ENDPOINT_DEVICE_STATUS w) as [[v|e] w1] eqn:H.
    + destruct (refresh_returns (set_schedules_loaded false c) _ _ _ H)
        as (snapshot & ev & c' & w' & -> & _ & _ & _ & _ & _ & S2 & _).
      destruct (S2 eq_refl) as (x & Hx & Hl).
      exists ev, {| coordinator := c'; world := w' |}.
      cbn. rewrite Hx. repeat split; eauto; discriminate.
    + rewrite (refresh_fails (set_schedules_loaded false c) _ _ _ H).
      do 2 eexists. cbn. repeat split; auto; discriminate.
Qed.

(** ** More properties of the client *)

(** X7. One call, one request, and never a retry. A GET asks the session
    once: the device is left as that one call leaves it, the result is
    made from that one answer, and the trace is the one exchange, with the
    method, endpoint and body given. The same holds of a POST. Any other
    method sends nothing, changes nothing and returns [None]. The
    coordinator is never touched. *)
Theorem request_sends_once method endpoint data s :
  let url := (_host ++ endpoint)%string in
  coordinator (snd (_request method endpoint data s)) = coordinator s
  /\ _request "GET" endpoint data s
     = (api_result url (fst (get_raw endpoint (world s))),
        [Exchange "GET" endpoint data (fst (get_raw endpoint (world s)))],
        {| coordinator := coordinator s;
           world := snd (session_get url (world s)) |})
  /\ _request "POST" endpoint data s
     = (api_result url (fst (post_raw endpoint data (world s))),
        [Exchange "POST" endpoint data
           (fst (post_raw endpoint data (world s)))],
        {| coordinator := coordinator s;
           world := snd (session_post url data (world s)) |})
  /\ fst (get_raw endpoint (world s))
     = match fst (session_get url (world s)) with
       | Ret resp => _ <~ raise_for_status resp ;; json resp
       | Raise e => Raise e
       end
  /\ fst (post_raw endpoint data (world s))
     = match fst (session_post url data (world s)) with
       | Ret resp =>
           _ <~ raise_for_status resp ;;
           if status resp =? 204 then Ret VNone else json resp
       | Raise e => Raise e
       end
  /\ (method <> "GET" -> method <> "POST" ->
      _request method endpoint data s = (Ret VNone, [], s)).
Proof.
  intros url.
  assert (G : _request "GET" endpoint data s
              = (api_result url (fst (get_raw endpoint (world s))),
                 [Exchange "GET" endpoint data
                    (fst (get_raw endpoint (world s)))],
                 {| coordinator := coordinator s;
                    world := snd (session_get url (world s)) |})).
  { rewrite _request_GET. unfold get_raw. fold url.
    destruct (session_get url (world s)) as [[resp|e] w']; reflexivity. }
  assert (P : _request "POST" endpoint data s
              = (api_result url (fst (post_raw endpoint data (world s))),
                 [Exchange "POST" endpoint data
                    (fst (post_raw endpoint data (world s)))],
                 {| coordinator := coordinator s;
                    world := snd (session_post url data (world s)) |})).
  { rewrite _request_POST. unfold post_raw. fold url.
    destruct (session_post url data (world s)) as [[resp|e] w'];
      reflexivity. }
  assert (O : method <> "GET" -> method <> "POST" ->
              _request method endpoint data s = (Ret VNone, [], s)).
  { intros HG HP. unfold _request, try_except, ret.
    apply String.eqb_neq in HG, HP. now rewrite HG, HP. }
  split; [|split; [exact G|split; [exact P|split; [|split; [|exact O]]]]].
  - destruct (String.eqb_spec method "GET") as [->|HG]; [now rewrite G|].
    destruct (String.eqb_spec method "POST") as [->|HP]; [now rewrite P|].
    now rewrite (O HG HP).
  - unfold get_raw. fold url.
    destruct (session_get url (world s)) as [[resp|e] w']; reflexivity.
  - unfold post_raw. fold url.
    destruct (session_post url data (world s)) as [[resp|e] w'];
      reflexivity.
Qed.

(** X8. The query of the vitals summary, for each of the eight ways of
    giving the arguments: an argument that is [None] leaves no trace, so
    with none given the endpoint is the bare path; the arguments that are
    given follow a question mark in the order side, startTime, endTime,
    joined by ampersands, each value put in as it is. An empty string
    counts as an argument that is not given. *)
Theorem vitals_summary_query side start_time end_time :
  side <> "" -> start_time <> "" -> end_time <> "" ->
  let query (text : string) :=
    _request "GET" (ENDPOINT_VITALS_SUMMARY ++ text)%string VNone in
  async_get_vitals_summary None None None
  = _request "GET" ENDPOINT_VITALS_SUMMARY VNone
  /\ async_get_vitals_summary (Some side) None None
     = query ("?side=" ++ side)%string
  /\ async_get_vitals_summary None (Some start_time) None
     = query ("?startTime=" ++ start_time)%string
  /\ async_get_vitals_summary None None (Some end_time)
     = query ("?endTime=" ++ end_time)%string
  /\ async_get_vitals_summary (Some side) (Some start_time) None
     = query ("?side=" ++ side ++ "&startTime=" ++ start_time)%string
  /\ async_get_vitals_summary (Some side) None (Some end_time)
     = query ("?side=" ++ side ++ "&endTime=" ++ end_time)%string
  /\ async_get_vitals_summary None (Some start_time) (Some end_time)
     = query ("?startTime=" ++ start_time ++ "&endTime=" ++ end_time)%string
  /\ async_get_vitals_summary (Some side) (Some start_time) (Some end_time)
     = query ("?side=" ++ side ++ "&startTime=" ++ start_time
              ++ "&endTime=" ++ end_time)%string
  /\ (forall a b,
        async_get_vitals_summary (Some "") a b
        = async_get_vitals_summary None a b
        /\ async_get_vitals_summary a (Some "") b
           = async_get_vitals_summary a None b
        /\ async_get_vitals_summary a b (Some "")
           = async_get_vitals_summary a b None).
Proof.
  intros H1 H2 H3 query. subst query.
  apply String.eqb_neq in H1, H2, H3.
  assert (A : forall a b c : string,
            ((a ++ b) ++ c = a ++ b ++ c)%string).
  { intros a b c. induction a as [|x a IH]; [reflexivity|].
    cbn [String.append]. now rewrite IH. }
  unfold async_get_vitals_summary, given, text_of.
  rewrite H1, H2, H3. cbn [negb String.eqb app String.concat].
  repeat split; try reflexivity;
    try (rewrite ?A; reflexivity);
    try (destruct a as [[|x a]|]; destruct b as [[|y b]|]; reflexivity).
Qed.

(** ** More properties of the commands *)

Lemma refresh_total s : exists ev s', async_refresh s = (Ret tt, ev, s').
Proof.
  destruct s as [c w].
  destruct (refresh_counts c w) as (ev & c' & w' & E & _). eauto.
Qed.

Lemma post_outcome (k : M unit) endpoint body s :
  (_request "POST" endpoint body ;; k) s =
  match post_raw endpoint body (world s) with
  | (Ret payload, w') =>
      let '(r, ev, s') := k {| coordinator := coordinator s; world := w' |} in
      (r, Exchange "POST" endpoint body (Ret payload) :: ev, s')
  | (Raise cause, w') =>
      (Raise (api_error (_host ++ endpoint)%string cause),
       [Exchange "POST" endpoint body (Raise cause)],
       {| coordinator := coordinator s; world := w' |})
  end.
Proof.
  unfold bind. rewrite _request_POST.
  destruct (post_raw endpoint body (world s)) as [[v|e] w']; reflexivity.
Qed.

Lemma post_refresh endpoint body invalidate s :
  writes_then_refreshes
    (_request "POST" endpoint body ;; modify invalidate ;; async_request_refresh)
    s endpoint body invalidate.
Proof.
  unfold writes_then_refreshes. rewrite post_outcome.
  destruct (post_raw endpoint body (world s)) as [[v|e] w']; [|reflexivity].
  unfold async_request_refresh. mrun.
  destruct (refresh_total
              {| coordinator := invalidate (coordinator s); world := w' |})
    as (ev & s' & E).
  rewrite E. exists ev, s'. split; reflexivity.
Qed.

Lemma post_refresh_plain endpoint body s :
  writes_then_refreshes
    (_request "POST" endpoint body ;; async_request_refresh)
    s endpoint body (fun c => c).
Proof.
  unfold writes_then_refreshes. rewrite post_outcome.
  destruct (post_raw endpoint body (world s)) as [[v|e] w']; [|reflexivity].
  unfold async_request_refresh.
  destruct (refresh_total {| coordinator := coordinator s; world := w' |})
    as (ev & s' & E).
  rewrite E. exists ev, s'. split; reflexivity.
Qed.

Lemma post_unit_refresh endpoint body s :
  writes_then_refreshes
    ((_request "POST" endpoint body ;; ret tt) ;; async_request_refresh)
    s endpoint body (fun c => c).
Proof.
  pose proof (post_refresh_plain endpoint body s) as H.
  unfold writes_then_refreshes in *.
  assert (E : ((_request "POST" endpoint body ;; ret tt) ;; async_request_refresh) s
              = (_request "POST" endpoint body ;; async_request_refresh) s).
  { unfold bind, ret.
    destruct (_request "POST" endpoint body s) as [[[v|e] ev] s1];
      [|reflexivity].
    rewrite app_nil_r. reflexivity. }
  rewrite E. exact H.
Qed.

Lemma same_run (m m' : M unit) s endpoint body invalidate :
  writes_then_refreshes m s endpoint body invalidate ->
  m' s = m s ->
  writes_then_refreshes m' s endpoint body invalidate.
Proof.
  unfold writes_then_refreshes. intros H E.
  destruct (post_raw endpoint body (world s)) as [[v|e] w']; rewrite E;
    exact H.
Qed.

Ltac by_cases_on_run :=
  repeat match goal with
  | |- context [_request ?method ?endpoint ?body ?st] =>
      destruct (_request method endpoint body st) as [[[?v|?e] ?ev] ?s]
  | |- context [async_request_refresh ?st] =>
      destruct (async_request_refresh st) as [[?r ?ev] ?s]
  end;
  reflexivity.

(** X9. The two plain numbers write to the device status and refresh.
    The temperature number posts the side's target temperature, cut to an
    integer, from every state: unlike the climate entity it has no
    away-mode guard. The LED brightness goes to the device status endpoint
    too, under [settings]. A failed POST is raised to the caller as the
    client's error, before any refresh; after a POST that went through the
    command returns, whatever the refresh meets. *)
Theorem plain_numbers_write_from_every_state _side value s :
  writes_then_refreshes
    (FreeSleepTemperatureNumber_async_set_native_value _side value) s
    ENDPOINT_DEVICE_STATUS
    (VDict [(_side,
             VDict [("targetTemperatureF", VNum (Int (py_int value)))])])
    (fun c => c)
  /\ writes_then_refreshes
       (FreeSleepLEDBrightnessNumber_async_set_native_value value) s
       ENDPOINT_DEVICE_STATUS
       (VDict [("settings",
                VDict [("ledBrightness", VNum (Int (py_int value)))])])
       (fun c => c).
Proof. split; apply post_refresh_plain. Qed.

(** X10. The buttons. The dismiss-alarm button does what the snooze button
    does: both post the side to the snooze endpoint. The prime button and
    the prime service post [isPriming] true to the device status. Each is
    one POST followed, when the POST went through, by one refresh. *)
Theorem dismiss_button_snoozes _side s :
  FreeSleepDismissAlarmButton_async_press _side s
  = FreeSleepSnoozeButton_async_press _side s
  /\ writes_then_refreshes (FreeSleepDismissAlarmButton_async_press _side) s
       ENDPOINT_SNOOZE (VDict [("side", VStr _side)]) (fun c => c)
  /\ writes_then_refreshes FreeSleepPrimeButton_async_press s
       ENDPOINT_DEVICE_STATUS (VDict [("isPriming", VBool true)]) (fun c => c)
  /\ handle_prime_pod s = FreeSleepPrimeButton_async_press s.
Proof.
  split; [reflexivity|]. split; [apply post_unit_refresh|].
  split; [apply post_unit_refresh|reflexivity].
Qed.

(** X11. Power. Turning a side on or off, from the climate entity, from
    its HVAC mode or from the power switch, is the same command: one POST
    of the side's [isOn] to the device status, then a refresh. The HVAC
    modes other than off and heat-cool send nothing and change nothing. *)
Theorem power_commands_agree _side s :
  writes_then_refreshes (async_turn_on _side) s ENDPOINT_DEVICE_STATUS
    (VDict [(_side, VDict [("isOn", VBool true)])]) (fun c => c)
  /\ writes_then_refreshes (async_turn_off _side) s ENDPOINT_DEVICE_STATUS
       (VDict [(_side, VDict [("isOn", VBool false)])]) (fun c => c)
  /\ FreeSleepPowerSwitch_async_turn_on _side s = async_turn_on _side s
  /\ FreeSleepPowerSwitch_async_turn_off _side s = async_turn_off _side s
  /\ (forall mode,
        async_set_hvac_mode _side mode s
        = match mode with
          | HVACMode_OFF => async_turn_off _side s
          | HVACMode_HEAT_COOL => async_turn_on _side s
          | _ => (Ret tt, [], s)
          end).
Proof.
  split; [apply post_refresh_plain|]. split; [apply post_refresh_plain|].
  split; [reflexivity|]. split; [reflexivity|].
  intros []; reflexivity.
Qed.

(** X12. The commands that change the settings or the schedules clear the
    matching loaded flag, and only after their POST went through: the
    refresh that follows runs from a coordinator whose flag is cleared, so
    it fetches the resource again; a failed POST is raised to the caller
    and leaves the flag, and the rest of the coordinator, as it was. *)
Theorem writes_invalidate_what_they_change side day schedule alarm
    away_start away_return s :
  writes_then_refreshes (handle_set_schedule side day schedule) s
    ENDPOINT_SCHEDULES (VDict [(side, VDict [(day, schedule)])])
    (set_schedules_loaded false)
  /\ writes_then_refreshes (handle_set_alarm side day alarm) s
       ENDPOINT_SCHEDULES
       (VDict [(side, VDict [(day, VDict [("alarm", alarm)])])])
       (set_schedules_loaded false)
  /\ writes_then_refreshes
       (handle_enable_away_mode side away_start away_return) s
       ENDPOINT_SETTINGS
       (VDict [(side, VDict [("awayMode", VBool true);
                             ("awayStart", away_start);
                             ("awayReturn", away_return)])])
       (set_settings_loaded false)
  /\ writes_then_refreshes (handle_disable_away_mode side) s
       ENDPOINT_SETTINGS
       (VDict [(side, VDict [("awayMode", VBool false);
                             ("awayStart", VNone);
                             ("awayReturn", VNone)])])
       (set_settings_loaded false)
  /\ writes_then_refreshes FreeSleepLinkSidesSwitch_async_turn_on s
       ENDPOINT_SETTINGS (VDict [("linkBothSides", VBool true)])
       (set_settings_loaded false)
  /\ writes_then_refreshes FreeSleepLinkSidesSwitch_async_turn_off s
       ENDPOINT_SETTINGS (VDict [("linkBothSides", VBool false)])
       (set_settings_loaded false).
Proof. repeat split; apply post_refresh. Qed.

(** X13. Opening the cover and closing it do not go the same way: opening
    posts the angles of the relax preset (head 30, feet 15, feed rate 50)
    to the base-control endpoint, closing posts the name of the flat
    preset to the preset endpoint, as the preset service does with the
    name it is given. The position service posts the head and feet of
    the call, [None] for one the call leaves out, and feed rate 50 unless
    the call gives one. *)
Theorem base_commands_and_presets preset call_data s :
  writes_then_refreshes async_open_cover s ENDPOINT_BASE_CONTROL
    (VDict [("head", VNum (Int 30)); ("feet", VNum (Int 15));
            ("feedRate", VNum (Int 50))])
    (fun c => c)
  /\ writes_then_refreshes async_close_cover s ENDPOINT_BASE_CONTROL_PRESET
       (VDict [("preset", VStr "flat")]) (fun c => c)
  /\ writes_then_refreshes (handle_set_base_preset preset) s
       ENDPOINT_BASE_CONTROL_PRESET (VDict [("preset", VStr preset)])
       (fun c => c)
  /\ writes_then_refreshes (handle_set_base_position call_data) s
       ENDPOINT_BASE_CONTROL
       (VDict [("head", match lookup "head" call_data with
                        | Some head => head
                        | None => VNone
                        end);
               ("feet", match lookup "feet" call_data with
                        | Some feet => feet
                        | None => VNone
                        end);
               ("feedRate", match lookup "feed_rate" call_data with
                            | Some feed_rate => feed_rate
                            | None => VNum (Int 50)
                            end)])
       (fun c => c).
Proof.
  split; [|split; [apply post_refresh_plain|split;
                   [apply post_refresh_plain|]]].
  - eapply same_run; [apply post_refresh_plain|].
    unfold async_open_cover, async_set_base_position. mrun.
    cbn [py_get py_subscript lookup BASE_PRESETS String.eqb Ascii.eqb
         Bool.eqb base_preset BASE_PRESET_FLAT BASE_PRESET_SLEEP
         BASE_PRESET_RELAX].
    by_cases_on_run.
  - eapply same_run; [apply post_refresh_plain|].
    unfold handle_set_base_position, async_set_base_position. mrun.
    cbn [py_get].
    destruct (lookup "head" call_data), (lookup "feet" call_data),
      (lookup "feed_rate" call_data); by_cases_on_run.
Qed.

(** [int((x / b) * a)] in binary64 arithmetic is the integer quotient
    [(x * a) ÷ b] for every [x] from 0 to [n], once that is checked on each
    of these values. *)
Lemma scale_steps a b n :
  forallb
    (fun x =>
       match num_truediv (Finite (Int x)) (Finite (Int b)) with
       | Ret fraction =>
           match num_mul fraction (Finite (Int a)) with
           | Ret product =>
               match int_of product with
               | Ret z => z =? (x * a) ÷ b
               | Raise _ => false
               end
           | Raise _ => false
           end
       | Raise _ => false
       end)
    (map Z.of_nat (seq 0 (S n))) = true ->
  forall x,
    0 <= x <= Z.of_nat n ->
    exists fraction product,
      num_truediv (Finite (Int x)) (Finite (Int b)) = Ret fraction
      /\ num_mul fraction (Finite (Int a)) = Ret product
      /\ int_of product = Ret ((x * a) ÷ b).
Proof.
  intros Hall x Hx. rewrite forallb_forall in Hall.
  assert (Hin : In x (map Z.of_nat (seq 0 (S n)))).
  { apply in_map_iff. exists (Z.to_nat x). split; [lia|].
    apply in_seq. lia. }
  specialize (Hall x Hin).
  destruct (num_truediv (Finite (Int x)) (Finite (Int b))) as [fraction|];
    [|discriminate].
  destruct (num_mul fraction (Finite (Int a))) as [product|] eqn:Hm;
    [|discriminate].
  destruct (int_of product) as [z|] eqn:Hz; [|discriminate].
  apply Z.eqb_eq in Hall. subst z. eauto.
Qed.

Lemma position_to_head p :
  0 <= p <= 100 ->
  exists fraction product,
    num_truediv (Finite (Int p)) (Finite (Int 100)) = Ret fraction
    /\ num_mul fraction (Finite (Int 60)) = Ret product
    /\ int_of product = Ret ((p * 60) ÷ 100).
Proof. apply (scale_steps 60 100 100). vm_compute. reflexivity. Qed.

Lemma tilt_to_feet p :
  0 <= p <= 100 ->
  exists fraction product,
    num_truediv (Finite (Int p)) (Finite (Int 100)) = Ret fraction
    /\ num_mul fraction (Finite (Int 45)) = Ret product
    /\ int_of product = Ret ((p * 45) ÷ 100).
Proof. apply (scale_steps 45 100 100). vm_compute. reflexivity. Qed.

Lemma head_to_position head :
  0 <= head <= 60 ->
  exists fraction product,
    num_truediv (Finite (Int head)) (Finite (Int 60)) = Ret fraction
    /\ num_mul fraction (Finite (Int 100)) = Ret product
    /\ int_of product = Ret ((head * 100) ÷ 60).
Proof. apply (scale_steps 100 60 60). vm_compute. reflexivity. Qed.

Lemma feet_to_tilt feet :
  0 <= feet <= 45 ->
  exists fraction product,
    num_truediv (Finite (Int feet)) (Finite (Int 45)) = Ret fraction
    /\ num_mul fraction (Finite (Int 100)) = Ret product
    /\ int_of product = Ret ((feet * 100) ÷ 45).
Proof. apply (scale_steps 100 45 45). vm_compute. reflexivity. Qed.

(** X14. Stopping the base, from the button or from the cover, sends the
    device back to the position of the last snapshot: with a non-empty
    [base_control] there it posts that head and feet (0 for one that is
    missing) with feed rate 50, then refreshes; with no [base_control] in
    the snapshot, or a falsy one, it sends nothing at all. *)
Theorem stop_resends_the_last_known_position c w d :
  data c = VDict d ->
  (lookup "base_control" d = None ->
   FreeSleepStopBaseButton_async_press {| coordinator := c; world := w |}
   = (Ret tt, [], {| coordinator := c; world := w |}))
  /\ (forall base_control,
        lookup "base_control" d = Some base_control ->
        truthy base_control = false ->
        FreeSleepStopBaseButton_async_press {| coordinator := c; world := w |}
        = (Ret tt, [], {| coordinator := c; world := w |}))
  /\ (forall b,
        lookup "base_control" d = Some (VDict b) -> b <> [] ->
        writes_then_refreshes FreeSleepStopBaseButton_async_press
          {| coordinator := c; world := w |} ENDPOINT_BASE_CONTROL
          (VDict [("head", match lookup "head" b with
                           | Some head => head
                           | None => VNum (Int 0)
                           end);
                  ("feet", match lookup "feet" b with
                           | Some feet => feet
                           | None => VNum (Int 0)
                           end);
                  ("feedRate", VNum (Int 50))])
          (fun c => c))
  /\ async_stop_cover {| coordinator := c; world := w |}
     = FreeSleepStopBaseButton_async_press {| coordinator := c; world := w |}.
Proof.
  intros Hd. repeat split.
  - intros Hb. unfold FreeSleepStopBaseButton_async_press. mrun.
    rewrite Hd. cbn [py_get]. now rewrite Hb.
  - intros base_control Hb Hf. unfold FreeSleepStopBaseButton_async_press.
    mrun. rewrite Hd. cbn [py_get]. rewrite Hb, Hf. reflexivity.
  - intros b Hb Hne. eapply same_run; [apply post_refresh_plain|].
    unfold FreeSleepStopBaseButton_async_press, async_set_base_position.
    mrun. rewrite Hd. cbn [py_get]. rewrite Hb.
    destruct b as [|entry b]; [congruence|]. cbn [truthy py_get].
    destruct (lookup "head" (entry :: b)), (lookup "feet" (entry :: b));
      by_cases_on_run.
Qed.

(** X15. A cover position is a head angle and a tilt position a feet
    angle. For a position [p] from 0 to 100, setting the position posts
    head [int(p / 100 * 60)], a value from 0 to 60, and setting the tilt
    posts feet [int(p / 100 * 45)], a value from 0 to 45; the other angle is
    the one of the snapshot's [base_control], 0 when it is missing there
    or when the snapshot has no [base_control]; the feed rate is 50. A
    call without a position sends nothing. *)
Theorem cover_position_is_a_head_angle c w d p :
  data c = VDict d ->
  0 <= p <= 100 ->
  (0 <= (p * 60) ÷ 100 <= 60 /\ 0 <= (p * 45) ÷ 100 <= 45)
  /\ (forall b,
        lookup "base_control" d = Some (VDict b) -> b <> [] ->
        writes_then_refreshes (async_set_cover_position (Some (Int p)))
          {| coordinator := c; world := w |} ENDPOINT_BASE_CONTROL
          (VDict [("head", VNum (Int ((p * 60) ÷ 100)));
                  ("feet", match lookup "feet" b with
                           | Some feet => feet
                           | None => VNum (Int 0)
                           end);
                  ("feedRate", VNum (Int 50))])
          (fun c => c)
        /\ writes_then_refreshes (async_set_cover_tilt_position (Some (Int p)))
             {| coordinator := c; world := w |} ENDPOINT_BASE_CONTROL
             (VDict [("head", match lookup "head" b with
                              | Some head => head
                              | None => VNum (Int 0)
                              end);
                     ("feet", VNum (Int ((p * 45) ÷ 100)));
                     ("feedRate", VNum (Int 50))])
             (fun c => c))
  /\ (lookup "base_control" d = None ->
      writes_then_refreshes (async_set_cover_position (Some (Int p)))
        {| coordinator := c; world := w |} ENDPOINT_BASE_CONTROL
        (VDict [("head", VNum (Int ((p * 60) ÷ 100)));
                ("feet", VNum (Int 0)); ("feedRate", VNum (Int 50))])
        (fun c => c)
      /\ writes_then_refreshes (async_set_cover_tilt_position (Some (Int p)))
           {| coordinator := c; world := w |} ENDPOINT_BASE_CONTROL
           (VDict [("head", VNum (Int 0));
                   ("feet", VNum (Int ((p * 45) ÷ 100)));
                   ("feedRate", VNum (Int 50))])
           (fun c => c))
  /\ async_set_cover_position None {| coordinator := c; world := w |}
     = (Ret tt, [], {| coordinator := c; world := w |})
  /\ async_set_cover_tilt_position None {| coordinator := c; world := w |}
     = (Ret tt, [], {| coordinator := c; world := w |}).
Proof.
  intros Hd Hp. split.
  { rewrite !Z.quot_div_nonneg by lia. split; split.
    - apply Z.div_pos; lia.
    - apply Z.div_le_upper_bound; lia.
    - apply Z.div_pos; lia.
    - apply Z.div_le_upper_bound; lia. }
  destruct (position_to_head p Hp) as (f1 & g1 & F1 & G1 & I1).
  destruct (tilt_to_feet p Hp) as (f2 & g2 & F2 & G2 & I2).
  split; [|split; [|split; reflexivity]].
  - intros b Hb Hne. destruct b as [|entry b]; [congruence|]. split.
    + eapply same_run; [apply post_refresh_plain|].
      unfold async_set_cover_position, async_set_base_position.
      mrun. rewrite F1, G1, I1.
      rewrite Hd. cbn [py_get]. rewrite Hb. cbn [truthy py_get].
      destruct (lookup "feet" (entry :: b)); by_cases_on_run.
    + eapply same_run; [apply post_refresh_plain|].
      unfold async_set_cover_tilt_position, async_set_base_position.
      mrun. rewrite F2, G2, I2.
      rewrite Hd. cbn [py_get]. rewrite Hb. cbn [truthy py_get].
      destruct (lookup "head" (entry :: b)); by_cases_on_run.
  - intros Hb. split.
    + eapply same_run; [apply post_refresh_plain|].
      unfold async_set_cover_position, async_set_base_position.
      mrun. rewrite F1, G1, I1.
      rewrite Hd. cbn [py_get]. rewrite Hb. cbn [truthy].
      by_cases_on_run.
    + eapply same_run; [apply post_refresh_plain|].
      unfold async_set_cover_tilt_position, async_set_base_position.
      mrun. rewrite F2, G2, I2.
      rewrite Hd. cbn [py_get]. rewrite Hb. cbn [truthy].
      by_cases_on_run.
Qed.

(** X16. Between two fetches the paced resources are not in the snapshot,
    and the entities that read them fall back. After a refresh that
    succeeds without the vitals being due, the six vitals sensors read
    unknown; after one that succeeds without the base control being due,
    the cover reads closed, not moving and of unknown position and tilt,
    and the base-moving sensor reads off, whatever the base is doing. *)
Theorem paced_entities_fall_back_between_fetches c w :
  let s' := snd (async_refresh {| coordinator := c; world := w |}) in
  last_update_success (coordinator s') = true ->
  (_vitals_counter c + 1 < 12 ->
   forall entity_description,
     In entity_description SENSOR_TYPES ->
     In (key entity_description)
        ["heart_rate_left"; "hrv_left"; "breathing_rate_left";
         "heart_rate_right"; "hrv_right"; "breathing_rate_right"] ->
     native_value entity_description (data (coordinator s')) = Ret VNone)
  /\ (_base_counter c = 0 ->
      is_closed (data (coordinator s')) = Ret (VBool true)
      /\ is_opening (data (coordinator s')) = Ret (VBool false)
      /\ current_cover_position (data (coordinator s')) = Ret VNone
      /\ current_cover_tilt_position (data (coordinator s')) = Ret VNone
      /\ forall entity_description,
           In entity_description BINARY_SENSOR_TYPES ->
           key entity_description = "base_moving" ->
           native_value entity_description (data (coordinator s'))
           = Ret (VBool false)).
Proof.
  intros s' Hok. subst s'.
  destruct (refresh_snapshot_keys c w Hok) as (snapshot & E & _ & _ & KB & KV).
  rewrite E. split.
  - intros Hv entity_description Hin Hkey. specialize (KV Hv).
    cbn [SENSOR_TYPES In] in Hin.
    repeat (destruct Hin as [<-|Hin]);
      try (exfalso; exact Hin);
      cbn [key In] in Hkey;
      try (exfalso; intuition discriminate);
      unfold native_value; cbn [value_fn py_get pbind];
      rewrite KV; reflexivity.
  - intros Hb. specialize (KB Hb).
    unfold is_closed, is_opening, current_cover_position,
      current_cover_tilt_position, if_get.
    cbn [py_get pbind]. rewrite KB. cbn [truthy pbind].
    repeat split.
    intros entity_description Hin Hkey.
    cbn [BINARY_SENSOR_TYPES In] in Hin.
    repeat (destruct Hin as [<-|Hin]);
      try (exfalso; exact Hin);
      cbn [key] in Hkey; try discriminate;
      unfold native_value; cbn [value_fn py_get pbind];
      rewrite KB; reflexivity.
Qed.

End Integration.

Arguments coordinator {World} s.
Arguments world {World} s.

(** ** Presentation adapters *)



(** ** Rounding stays in range

    The quotient of two integers is rounded to a finite binary64 number
    as long as it is below [2 ^ 1023] in magnitude. *)

























Lemma equal_to_zero_is_falsy v :
  py_eq v (VNum (Int 0)) = true -> truthy v = false.
Proof.
  destruct v as [|b|n|s|l|d]; cbn; try discriminate.
  - destruct b; [discriminate|reflexivity].
  - unfold num_eqb. cbn [to_Q]. now intros ->.
Qed.

(** C10. For every snapshot whose [base_control] entry has a head angle
    equal to 0, [current_cover_position] is [None], and likewise
    [current_cover_tilt_position] when the feet angle equals 0: the very
    answers given when the angle is missing from the entry, so a flat base
    cannot be told from missing position data. *)
Theorem flat_base_position_reads_as_unknown d base_control :
  lookup "base_control" d = Some (VDict base_control) ->
  (forall head,
     lookup "head" base_control = Some head ->
     py_eq head (VNum (Int 0)) = true ->
     current_cover_position (VDict d) = Ret VNone)
  /\ (forall feet,
        lookup "feet" base_control = Some feet ->
        py_eq feet (VNum (Int 0)) = true ->
        current_cover_tilt_position (VDict d) = Ret VNone)
  /\ (lookup "head" base_control = None ->
      current_cover_position (VDict d) = Ret VNone)
  /\ (lookup "feet" base_control = None ->
      current_cover_tilt_position (VDict d) = Ret VNone).
Proof.
  intros Hb.
  unfold current_cover_position, current_cover_tilt_position.
  cbn [py_get pbind]. rewrite Hb. cbn [pbind].
  repeat split.
  - intros head Hh Hz.
    destruct base_control as [|entry base_control]; [discriminate|].
    cbn [truthy py_get]. rewrite Hh. cbn [pbind].
    now rewrite (equal_to_zero_is_falsy _ Hz).
  - intros feet Hf Hz.
    destruct base_control as [|entry base_control]; [discriminate|].
    cbn [truthy py_get]. rewrite Hf. cbn [pbind].
    now rewrite (equal_to_zero_is_falsy _ Hz).
  - intros Hh. destruct base_control as [|entry base_control];
      [reflexivity|]. cbn [truthy py_get]. now rewrite Hh.
  - intros Hf. destruct base_control as [|entry base_control];
      [reflexivity|]. cbn [truthy py_get]. now rewrite Hf.
Qed.

(** ** More properties of the presentation layer *)

Lemma num_eqb_Int_0 h : num_eqb (Int h) (Int 0) = (h =? 0).
Proof.
  unfold num_eqb, Qeq_bool, to_Q, inject_Z. cbn [Qnum Qden].
  now rewrite Z.mul_1_r.
Qed.

(** X17. Reading back a position that was set. Once the base reports the
    head angle that position [p] (from 0 to 100) was turned into, the
    cover's position reads at most [p] and at least [p - 2], and reads
    unknown for [p] below 2, where the angle is 0. With the feet angle
    that tilt [p] was turned into, the tilt reads between [p - 3] and [p],
    and unknown for [p] below 3. *)
Theorem cover_position_round_trip p d b :
  0 <= p <= 100 ->
  lookup "base_control" d = Some (VDict b) ->
  (lookup "head" b = Some (VNum (Int ((p * 60) ÷ 100))) ->
   if p <? 2 then current_cover_position (VDict d) = Ret VNone
   else exists r, current_cover_position (VDict d) = Ret (VNum (Int r))
                  /\ p - 2 <= r <= p)
  /\ (lookup "feet" b = Some (VNum (Int ((p * 45) ÷ 100))) ->
      if p <? 3 then current_cover_tilt_position (VDict d) = Ret VNone
      else exists r, current_cover_tilt_position (VDict d) = Ret (VNum (Int r))
                     /\ p - 3 <= r <= p).
Proof.
  intros Hp Hb. split.
  - intros Hh. unfold current_cover_position.
    cbn [py_get pbind]. rewrite Hb. cbn [pbind].
    destruct b as [|entry b]; [discriminate|].
    cbn [truthy py_get]. rewrite Hh. cbn [pbind truthy].
    rewrite num_eqb_Int_0.
    rewrite (Z.quot_div_nonneg (p * 60) 100) by lia.
    pose proof (Z.div_mod (p * 60) 100 ltac:(lia)) as D1.
    pose proof (Z.mod_pos_bound (p * 60) 100 ltac:(lia)) as B1.
    set (angle := p * 60 / 100) in *.
    destruct (Z.ltb_spec p 2) as [Hlt|Hge].
    + replace angle with 0 by lia. reflexivity.
    + assert (H1 : angle <> 0) by lia.
      apply Z.eqb_neq in H1. rewrite H1. cbn [negb].
      unfold py_truediv. cbn [as_number].
      destruct (head_to_position angle ltac:(lia)) as (f & g & F & G & I).
      rewrite F. cbn [pbind]. rewrite G. cbn [pbind]. rewrite I.
      cbn [pbind].
      rewrite (Z.quot_div_nonneg (angle * 100) 60) by lia.
      pose proof (Z.div_mod (angle * 100) 60 ltac:(lia)) as D2.
      pose proof (Z.mod_pos_bound (angle * 100) 60 ltac:(lia)) as B2.
      eexists. split; [reflexivity|lia].
  - intros Hf. unfold current_cover_tilt_position.
    cbn [py_get pbind]. rewrite Hb. cbn [pbind].
    destruct b as [|entry b]; [discriminate|].
    cbn [truthy py_get]. rewrite Hf. cbn [pbind truthy].
    rewrite num_eqb_Int_0.
    rewrite (Z.quot_div_nonneg (p * 45) 100) by lia.
    pose proof (Z.div_mod (p * 45) 100 ltac:(lia)) as D1.
    pose proof (Z.mod_pos_bound (p * 45) 100 ltac:(lia)) as B1.
    set (angle := p * 45 / 100) in *.
    destruct (Z.ltb_spec p 3) as [Hlt|Hge].
    + replace angle with 0 by lia. reflexivity.
    + assert (H1 : angle <> 0) by lia.
      apply Z.eqb_neq in H1. rewrite H1. cbn [negb].
      unfold py_truediv. cbn [as_number].
      destruct (feet_to_tilt angle ltac:(lia)) as (f & g & F & G & I).
      rewrite F. cbn [pbind]. rewrite G. cbn [pbind]. rewrite I.
      cbn [pbind].
      rewrite (Z.quot_div_nonneg (angle * 100) 45) by lia.
      pose proof (Z.div_mod (angle * 100) 45 ltac:(lia)) as D2.
      pose proof (Z.mod_pos_bound (angle * 100) 45 ltac:(lia)) as B2.
      eexists. split; [reflexivity|lia].
Qed.

Lemma num_ltb_lt a b : num_ltb a b = true <-> (to_Q a < to_Q b)%Q.
Proof.
  unfold num_ltb. rewrite negb_true_iff, <- not_true_iff_false, Qle_bool_iff.
  split; [apply Qnot_le_lt|apply Qlt_not_le].
Qed.

Lemma num_ltb_Int x y : num_ltb (Int x) (Int y) = (x <? y).
Proof.
  unfold num_ltb, Qle_bool, to_Q, inject_Z. cbn [Qnum Qden].
  rewrite !Z.mul_1_r. now rewrite Z.ltb_antisym.
Qed.

Ltac walk :=
  repeat (cbn [py_get pbind negb];
          match goal with
          | |- context [match lookup ?k ?d with _ => _ end] =>
              destruct (lookup k d)
          | |- context [if truthy ?v then _ else _] =>
              destruct (truthy v) eqn:?
          | |- context [py_get ?v _ _] => is_var v; destruct v
          end);
  cbn [py_get pbind negb].

(** X18. The HVAC action agrees with the HVAC mode. Whenever the mode of
    a side reads off, so does its action, and when reading the mode fails
    the action fails alike. When the mode reads heat-cool and both
    temperatures are integers, the action is never off: it is idle when
    they differ by less than one degree, heating when the current one is
    at least a degree below the target, and cooling when it is at least a
    degree above. With temperatures that are any numbers, an action that
    is read is never off, heating only with the current temperature below
    the target and cooling only with it at or above the target. With the
    side on and a temperature missing, the action reads off although the
    mode reads heat-cool. *)
Theorem hvac_action_follows_hvac_mode _side data :
  (hvac_mode _side data = Ret HVACMode_OFF ->
   hvac_action _side data = Ret HVACAction_OFF)
  /\ (forall e,
        hvac_mode _side data = Raise e -> hvac_action _side data = Raise e)
  /\ (forall d device_status side_data,
        data = VDict d ->
        lookup "device_status" d = Some (VDict device_status) ->
        lookup _side device_status = Some (VDict side_data) ->
        hvac_mode _side data = Ret HVACMode_HEAT_COOL ->
        (forall current target : Z,
           lookup "currentTemperatureF" side_data
           = Some (VNum (Int current)) ->
           lookup "targetTemperatureF" side_data
           = Some (VNum (Int target)) ->
           (hvac_action _side data = Ret HVACAction_IDLE
            /\ Z.abs (current - target) < 1)
           \/ (hvac_action _side data = Ret HVACAction_HEATING
               /\ current + 1 <= target)
           \/ (hvac_action _side data = Ret HVACAction_COOLING
               /\ target + 1 <= current))
        /\ (forall current target action,
              lookup "currentTemperatureF" side_data = Some (VNum current) ->
              lookup "targetTemperatureF" side_data = Some (VNum target) ->
              hvac_action _side data = Ret action ->
              action <> HVACAction_OFF
              /\ (action = HVACAction_HEATING ->
                  (to_Q current < to_Q target)%Q)
              /\ (action = HVACAction_COOLING ->
                  (to_Q target <= to_Q current)%Q))
        /\ (lookup "currentTemperatureF" side_data = None
            \/ lookup "targetTemperatureF" side_data = None ->
            hvac_action _side data = Ret HVACAction_OFF)).
Proof.
  split; [|split].
  - unfold hvac_mode, hvac_action, if_get. walk.
    all: try discriminate; try reflexivity.
  - intros e. unfold hvac_mode, hvac_action, if_get. walk.
    all: try discriminate; try (intros H; injection H as <-; reflexivity).
  - intros d device_status side_data -> Hds Hside.
    unfold hvac_mode, hvac_action, if_get. cbn [py_get pbind].
    rewrite Hds. cbn [pbind].
    destruct device_status as [|entry device_status]; [discriminate|].
    cbn [truthy py_get]. rewrite Hside. cbn [pbind].
    destruct side_data as [|entry' side_data]; [discriminate|].
    cbn [truthy py_get].
    destruct (lookup "isOn" (entry' :: side_data)) as [is_on|];
      cbn [pbind truthy]; [destruct (truthy is_on)|]; try discriminate.
    intros _. cbn [negb]. split; [|split].
    + intros current target -> ->.
      cbn [pbind is_none negb andb py_sub as_number num_sub num_abs ext_ltb
           py_lt].
      rewrite !num_ltb_Int.
      destruct (Z.ltb_spec (Z.abs (current - target)) 1) as [Hidle|Hfar].
      * left. split; [reflexivity|exact Hidle].
      * cbn [pbind]. destruct (Z.ltb_spec current target) as [Hlt|Hge].
        -- right. left. split; [reflexivity|lia].
        -- right. right. split; [reflexivity|lia].
    + intros current target action -> ->.
      cbn [pbind is_none negb andb py_sub as_number].
      destruct (num_sub (Finite current) (Finite target)) as [difference|e];
        cbn [pbind]; [|discriminate].
      destruct (ext_ltb (num_abs difference) (Finite (Int 1))).
      * intros H. injection H as <-. repeat split; discriminate.
      * cbn [py_lt as_number pbind].
        destruct (num_ltb current target) eqn:Hbelow;
          intros H; injection H as <-; repeat split; try discriminate.
        -- intros _. now apply num_ltb_lt.
        -- intros _. apply Qnot_lt_le. intros Hc.
           apply num_ltb_lt in Hc. congruence.
    + intros [->| ->]; cbn [pbind is_none negb andb].
      * destruct (lookup "targetTemperatureF" (entry' :: side_data));
          reflexivity.
      * destruct (lookup "currentTemperatureF" (entry' :: side_data))
          as [current|]; cbn [pbind is_none negb andb]; [|reflexivity].
        now rewrite andb_false_r.
Qed.

(** X19. A missing branch reads as unknown, not as an error. On a
    snapshot whose [device_status], [vitals] and [base_control] are each
    absent or empty, every sensor of the table reads [None] and every
    binary sensor reads off. *)
Theorem sensors_read_missing_data_as_unknown d :
  lookup "device_status" d = None
  \/ lookup "device_status" d = Some (VDict []) ->
  lookup "vitals" d = None \/ lookup "vitals" d = Some (VDict []) ->
  lookup "base_control" d = None
  \/ lookup "base_control" d = Some (VDict []) ->
  (forall entity_description,
     In entity_description SENSOR_TYPES ->
     native_value entity_description (VDict d) = Ret VNone)
  /\ (forall entity_description,
        In entity_description BINARY_SENSOR_TYPES ->
        native_value entity_description (VDict d) = Ret (VBool false)).
Proof.
  intros Hs Hv Hb. split.
  - intros entity_description Hin. cbn [SENSOR_TYPES In] in Hin.
    repeat (destruct Hin as [<-|Hin]); try (exfalso; exact Hin);
      unfold native_value, _calculate_water_level_percentage;
      cbn [value_fn py_get pbind];
      destruct Hs as [Hs|Hs], Hv as [Hv|Hv]; rewrite ?Hs, ?Hv; reflexivity.
  - intros entity_description Hin. cbn [BINARY_SENSOR_TYPES In] in Hin.
    repeat (destruct Hin as [<-|Hin]); try (exfalso; exact Hin);
      unfold native_value; cbn [value_fn py_get pbind];
      destruct Hs as [Hs|Hs], Hb as [Hb|Hb]; rewrite ?Hs, ?Hb; reflexivity.
Qed.

Lemma py_eq_string v text : py_eq v (VStr text) = true <-> v = VStr text.
Proof.
  destruct v; cbn; try (split; discriminate).
  rewrite String.eqb_eq. split; congruence.
Qed.

(** X20. Two binary sensors compare loosely. [water_level_ok] is on
    exactly when the device status gives [waterLevel] as the string
    ["true"], so a JSON boolean reads as not ok; [prime_notification] is
    on exactly when [primeCompletedNotification] is there and not null,
    whatever its value. *)
Theorem water_level_ok_wants_the_string d device_status entity_description :
  lookup "device_status" d = Some (VDict device_status) ->
  In entity_description BINARY_SENSOR_TYPES ->
  (key entity_description = "water_level_ok" ->
   exists on,
     native_value entity_description (VDict d) = Ret (VBool on)
     /\ (on = true <-> lookup "waterLevel" device_status = Some (VStr "true")))
  /\ (key entity_description = "prime_notification" ->
      exists on,
        native_value entity_description (VDict d) = Ret (VBool on)
        /\ (on = true <->
            exists notification,
              lookup "primeCompletedNotification" device_status
              = Some notification
              /\ notification <> VNone)).
Proof.
  intros Hs Hin. cbn [BINARY_SENSOR_TYPES In] in Hin.
  repeat (destruct Hin as [<-|Hin]); try (exfalso; exact Hin);
    cbn [key]; (split; intros Hkey; [try discriminate Hkey|try discriminate Hkey]);
    unfold native_value; cbn [value_fn py_get pbind]; rewrite Hs;
    cbn [pbind py_get].
  - destruct (lookup "waterLevel" device_status) as [v|]; cbn [pbind].
    + eexists. split; [reflexivity|]. rewrite py_eq_string.
      split; congruence.
    + eexists. split; [reflexivity|]. cbn. split; discriminate.
  - destruct (lookup "primeCompletedNotification" device_status) as [v|];
      cbn [pbind].
    + eexists. split; [reflexivity|]. destruct v; cbn; split;
        try discriminate; try (intros _; reflexivity);
        try (intros _; eexists; split; [reflexivity|discriminate]).
      intros (notification & E & Hn). congruence.
    + eexists. split; [reflexivity|]. cbn. split; [discriminate|].
      intros (notification & E & _). discriminate.
Qed.

Lemma rstrip_slash_cons c rest :
  rstrip_slash (String c rest)
  = match rstrip_slash rest with
    | EmptyString =>
        if Ascii.eqb c "/" then EmptyString else String c EmptyString
    | stripped => String c stripped
    end.
Proof. reflexivity. Qed.

Lemma rstrip_slash_no_slash host :
  forall text, rstrip_slash host = (text ++ "/")%string -> False.
Proof.
  induction host as [|c rest IH]; intros text.
  - destruct text; discriminate.
  - rewrite rstrip_slash_cons.
    destruct (rstrip_slash rest) as [|c2 stripped] eqn:E.
    + destruct (Ascii.eqb_spec c "/") as [->|Hc].
      * destruct text; discriminate.
      * destruct text as [|c' text]; cbn [String.append].
        -- intros H. injection H as H. contradiction.
        -- intros H. injection H as _ H. destruct text; discriminate.
    + destruct text as [|c' text]; cbn [String.append].
      * discriminate.
      * intros H. injection H as _ H. exact (IH text H).
Qed.

Lemma rstrip_slash_keeps host :
  (forall text, host = (text ++ "/")%string -> False) ->
  rstrip_slash host = host.
Proof.
  induction host as [|c rest IH]; intros Hend; [reflexivity|].
  rewrite rstrip_slash_cons, IH.
  - destruct rest; [|reflexivity].
    destruct (Ascii.eqb_spec c "/") as [->|Hc]; [|reflexivity].
    exfalso. exact (Hend EmptyString eq_refl).
  - intros text ->. exact (Hend (String c text) eq_refl).
Qed.

(** X21. The host the client talks to. A host typed with [http://] or
    [https://] in front is kept as typed by [validate_input], and any other
    gets [http://] put in front, so the host kept always starts with one
    of the two and validating twice changes nothing. The base URL the
    client keeps never ends with a slash: trailing slashes are dropped,
    however many, and nothing else is touched, so an endpoint, which starts
    with a slash, is appended without doubling it. *)
Theorem host_is_normalised host :
  (String.prefix "http://" host = true -> validated_host host = host)
  /\ (String.prefix "https://" host = true -> validated_host host = host)
  /\ (String.prefix "http://" host = false ->
      String.prefix "https://" host = false ->
      validated_host host = ("http://" ++ host)%string)
  /\ String.prefix "http://" (validated_host host)
     || String.prefix "https://" (validated_host host) = true
  /\ validated_host (validated_host host) = validated_host host
  /\ (forall text, rstrip_slash host = (text ++ "/")%string -> False)
  /\ rstrip_slash (host ++ "/") = rstrip_slash host
  /\ rstrip_slash (rstrip_slash host) = rstrip_slash host
  /\ ((forall text, host = (text ++ "/")%string -> False) ->
      rstrip_slash host = host).
Proof.
  assert (H1 : String.prefix "http://" (validated_host host)
               || String.prefix "https://" (validated_host host) = true).
  { unfold validated_host.
    destruct (String.prefix "http://" host || String.prefix "https://" host)
      eqn:E; [exact E|].
    apply orb_true_intro. left. apply String.prefix_correct.
    destruct host; reflexivity. }
  split; [intros E; unfold validated_host; now rewrite E|].
  split; [intros E; unfold validated_host; rewrite E;
          now rewrite orb_true_r|].
  split; [intros E E'; unfold validated_host; now rewrite E, E'|].
  split; [exact H1|]. split.
  { unfold validated_host at 1. now rewrite H1. }
  split; [apply rstrip_slash_no_slash|]. split.
  { clear H1. induction host as [|c rest IH]; [reflexivity|].
    cbn [String.append].
    rewrite !rstrip_slash_cons.
    now rewrite IH. }
  split; [|apply rstrip_slash_keeps].
  apply rstrip_slash_keeps, rstrip_slash_no_slash.
Qed.

(** X22. The power state of a side is read alike by the entities that
    show it. The climate entity's mode is heat-cool exactly when what the
    power switch reads is truthy, and it fails when the switch fails;
    and on a device status that has the side, the pod-on binary sensor of
    that side reads what the power switch reads. *)
Theorem power_state_is_read_alike _side data :
  (forall is_on,
     FreeSleepPowerSwitch_is_on _side data = Ret is_on ->
     hvac_mode _side data
     = Ret (if truthy is_on then HVACMode_HEAT_COOL else HVACMode_OFF))
  /\ (forall e,
        FreeSleepPowerSwitch_is_on _side data = Raise e ->
        hvac_mode _side data = Raise e)
  /\ (forall d device_status side_data entity_description,
        data = VDict d ->
        lookup "device_status" d = Some (VDict device_status) ->
        lookup _side device_status = Some (VDict side_data) ->
        In entity_description BINARY_SENSOR_TYPES ->
        (_side = "left" /\ key entity_description = "pod_on_left")
        \/ (_side = "right" /\ key entity_description = "pod_on_right") ->
        native_value entity_description data
        = FreeSleepPowerSwitch_is_on _side data).
Proof.
  split; [|split].
  - intros is_on. unfold FreeSleepPowerSwitch_is_on, hvac_mode, if_get. walk.
    all: try discriminate.
    all: intros H; injection H as <-; cbn [truthy] in *; congruence.
  - intros e. unfold FreeSleepPowerSwitch_is_on, hvac_mode, if_get. walk.
    all: try discriminate; try (intros H; injection H as <-; reflexivity).
  - intros d device_status side_data entity_description -> Hds Hside Hin Hkey.
    unfold FreeSleepPowerSwitch_is_on, if_get. cbn [py_get pbind].
    rewrite Hds. cbn [pbind].
    destruct device_status as [|entry device_status]; [discriminate|].
    cbn [truthy py_get]. rewrite Hside. cbn [pbind].
    cbn [BINARY_SENSOR_TYPES In] in Hin.
    repeat (destruct Hin as [<-|Hin]); try (exfalso; exact Hin);
      cbn [key] in Hkey;
      (destruct Hkey as [[-> Hkey]|[-> Hkey]]; try discriminate Hkey);
      unfold native_value; cbn [value_fn py_get pbind];
      rewrite Hds; cbn [pbind py_get]; rewrite Hside; cbn [pbind];
      destruct side_data; reflexivity.
Qed.

(** ** The theorems at work on the example hubs *)

(** A hub that never answers: the first tick of a new coordinator fails
    and publishes nothing. *)
Lemma device_status_failure_fails_tick_witness :
  let s := {| coordinator := __init__;
              world := ([] : list (pyres response)) |} in
  let err :=
    FreeSleepApiError "Timeout connecting to http://pod/api/deviceStatus"
      asyncio_TimeoutError in
  let ev :=
    [Exchange "GET" ENDPOINT_DEVICE_STATUS VNone (Raise asyncio_TimeoutError)] in
  async_get_device_status _ scripted_get scripted_post "http://pod" s
  = (Raise err, ev, s)
  /\ _async_update_data _ scripted_get scripted_post "http://pod" s
     = (Raise
          (UpdateFailed
             "Error communicating with API: Timeout connecting to http://pod/api/deviceStatus"
             err), ev, s)
  /\ async_refresh _ scripted_get scripted_post "http://pod" s
     = (Ret tt, ev,
        {| coordinator := set_last_update_success false __init__;
           world := [] |}).
Proof.
  cbv zeta.
  assert (Hfail :
    async_get_device_status _ scripted_get scripted_post "http://pod"
      {| coordinator := __init__; world := [] |}
    = (Raise
         (FreeSleepApiError "Timeout connecting to http://pod/api/deviceStatus"
            asyncio_TimeoutError),
       [Exchange "GET" ENDPOINT_DEVICE_STATUS VNone (Raise asyncio_TimeoutError)],
       {| coordinator := __init__; world := [] |}))
    by (vm_compute; reflexivity).
  split; [exact Hfail|].
  split;
    apply (device_status_failure_fails_tick (list (pyres response))
             scripted_get scripted_post "http://pod" _ _ _ _ Hfail).
Defined.

(** A hub that always answers: 100 ticks, one settings request. *)
Lemma load_once_resources_fetched_once_witness :
  let hub := answer 200 (Ret (VDict [("left", VDict [("awayMode", VBool false)])])) in
  let run :=
    run_ticks unit (steady_get hub) (steady_post hub) "http://pod" 100
      {| coordinator := __init__; world := tt |} in
  let x :=
    Exchange "GET" ENDPOINT_SETTINGS VNone
      (Ret (VDict [("left", VDict [("awayMode", VBool false)])])) in
  fetches ENDPOINT_SETTINGS (all_events (fst run)) = [x]
  /\ succeeded x = true
  /\ List.length (fetches ENDPOINT_SETTINGS (all_events (fst run))) = 1%nat.
Proof.
  cbv zeta.
  assert (Hfirst :
    fetches ENDPOINT_SETTINGS
      (all_events
         (fst (run_ticks unit
                 (steady_get
                    (answer 200
                       (Ret (VDict [("left", VDict [("awayMode", VBool false)])]))))
                 (steady_post
                    (answer 200
                       (Ret (VDict [("left", VDict [("awayMode", VBool false)])]))))
                 "http://pod" 100 {| coordinator := __init__; world := tt |})))
    = [Exchange "GET" ENDPOINT_SETTINGS VNone
         (Ret (VDict [("left", VDict [("awayMode", VBool false)])]))])
    by (vm_compute; reflexivity).
  split; [exact Hfirst|]. split; [reflexivity|].
  exact (proj2 (proj2 (proj2 (proj2
           (load_once_resources_fetched_once unit _ _ "http://pod"))))
           tt _ _ Hfirst eq_refl).
Defined.

(** The same hub over 24 ticks: the 12th fetches both paced resources and
    leaves both counters at 0. *)
Lemma paced_resources_cadence_witness :
  let hub := answer 200 (Ret (VDict [])) in
  let reports :=
    fst (run_ticks unit (steady_get hub) (steady_post hub) "http://pod" 24
           {| coordinator := __init__; world := tt |}) in
  let r := nth 11 reports {| events := []; after := __init__ |} in
  Forall (fun r => last_update_success (after r) = true) reports
  /\ nth_error reports 11 = Some r
  /\ List.length (fetches ENDPOINT_BASE_CONTROL (events r)) = 1%nat
  /\ _base_counter (after r) = 0
  /\ List.length (fetches ENDPOINT_VITALS_LEFT (events r)) = 1%nat
  /\ _vitals_counter (after r) = 0.
Proof.
  cbv zeta.
  set (reports :=
         fst (run_ticks unit (steady_get (answer 200 (Ret (VDict []))))
                (steady_post (answer 200 (Ret (VDict [])))) "http://pod" 24
                {| coordinator := __init__; world := tt |})).
  assert (Hok : Forall (fun r => last_update_success (after r) = true) reports)
    by (vm_compute; repeat constructor).
  assert (Hnth : nth_error reports 11
                 = Some (nth 11 reports {| events := []; after := __init__ |}))
    by (vm_compute; reflexivity).
  split; [exact Hok|]. split; [exact Hnth|].
  destruct
    (paced_resources_cadence unit _ _ "http://pod" 24 tt Hok 11%nat _ Hnth)
    as (B1 & B2 & V1 & _ & V2).
  repeat split; assumption.
Defined.


(** A hub whose every answer says that the left side is away. After the
    first tick of a new coordinator the snapshot holds the settings, and
    the write is refused on the spot. *)
Lemma set_temperature_in_away_mode_is_local_witness :
  let hub :=
    answer 200 (Ret (VDict [("left", VDict [("awayMode", VBool true)])])) in
  let s1 :=
    snd (run_ticks unit (steady_get hub) (steady_post hub) "http://pod" 1
           {| coordinator := __init__; world := tt |}) in
  async_set_temperature unit (steady_get hub) (steady_post hub) "http://pod"
    "left" (Some (Float (inject_Z 72)))
    {| coordinator := coordinator s1; world := world s1 |}
  = (Ret tt,
     [Logged WARNING "Cannot change temperature while left side is in away mode"],
     {| coordinator := coordinator s1; world := world s1 |}).
Proof.
  cbv zeta.
  eapply set_temperature_in_away_mode_is_local; vm_compute; reflexivity.
Defined.



(** A POST answered 204 with nothing to decode. *)
Lemma request_outcomes_witness :
  let body := VDict [("left", VDict [("awayMode", VBool false)])] in
  _request _ scripted_get scripted_post "http://pod" "POST" ENDPOINT_SETTINGS
    body
    {| coordinator := __init__;
       world := [answer 204 (Raise (Exception "Expecting value"))] |}
  = (Ret VNone, [Exchange "POST" ENDPOINT_SETTINGS body (Ret VNone)],
     {| coordinator := __init__; world := [] |}).
Proof.
  cbv zeta.
  exact (proj1
           (request_outcomes (list (pyres response)) scripted_get scripted_post
              "http://pod" ENDPOINT_SETTINGS _
              {| coordinator := __init__;
                 world := [answer 204 (Raise (Exception "Expecting value"))] |})
           _ _ eq_refl eq_refl).
Defined.

(** A base lying flat. *)
Lemma flat_base_position_reads_as_unknown_witness :
  let d :=
    [("device_status", VDict []);
     ("base_control",
      VDict [("head", VNum (Int 0)); ("feet", VNum (Float (inject_Z 0)))])] in
  current_cover_position (VDict d) = Ret VNone
  /\ current_cover_tilt_position (VDict d) = Ret VNone.
Proof.
  cbv zeta.
  pose proof
    (flat_base_position_reads_as_unknown
       [("device_status", VDict []);
        ("base_control",
         VDict [("head", VNum (Int 0)); ("feet", VNum (Float (inject_Z 0)))])]
       _ eq_refl) as (Hhead & Hfeet & _).
  split.
  - exact (Hhead _ eq_refl eq_refl).
  - exact (Hfeet _ eq_refl eq_refl).
Defined.

(** C8 as stated fails twice over. A GET answered 204 whose decoding
    raises (the HTTP library raises when the answer carries no JSON
    content type) ends in a [FreeSleepApiError], not in [None]: the 204
    shortcut is for POST only. And an answer with a status that is not 2xx
    but below 400, here 300 with a body that decodes, is no failure: the
    body is given back. *)
Lemma get_204_is_decoded_and_status_300_passes :
  _request _ scripted_get scripted_post "http://pod" "GET" ENDPOINT_SETTINGS
    VNone
    {| coordinator := __init__;
       world := [answer 204 (Raise (aiohttp_ClientError "unexpected mimetype"))] |}
  = (Raise
       (FreeSleepApiError "Error communicating with API: unexpected mimetype"
          (aiohttp_ClientError "unexpected mimetype")),
     [Exchange "GET" ENDPOINT_SETTINGS VNone
        (Raise (aiohttp_ClientError "unexpected mimetype"))],
     {| coordinator := __init__; world := [] |})
  /\ _request _ scripted_get scripted_post "http://pod" "GET"
       ENDPOINT_SETTINGS VNone
       {| coordinator := __init__;
          world := [answer 300 (Ret (VDict [("left", VDict [])]))] |}
     = (Ret (VDict [("left", VDict [])]),
        [Exchange "GET" ENDPOINT_SETTINGS VNone
           (Ret (VDict [("left", VDict [])]))],
        {| coordinator := __init__; world := [] |}).
Proof. split; vm_compute; reflexivity. Qed.


(** A hub that always answers with the same payload: the first tick of a
    new coordinator fetches the device status, the settings and the
    schedules, and its snapshot holds just these. *)
Lemma snapshot_holds_what_the_tick_fetched_witness :
  let hub := answer 200 (Ret (VDict [("linkBothSides", VBool true)])) in
  exists result ev s',
    _async_update_data unit (steady_get hub) (steady_post hub) "http://pod"
      {| coordinator := __init__; world := tt |}
    = (Ret result, ev, s')
    /\ exists snapshot,
         result = VDict snapshot
         /\ (exists device_status,
               fetched_payload ENDPOINT_DEVICE_STATUS ev = Some device_status
               /\ lookup "device_status" snapshot = Some device_status)
         /\ lookup "settings" snapshot = fetched_payload ENDPOINT_SETTINGS ev
         /\ lookup "schedules" snapshot
            = fetched_payload ENDPOINT_SCHEDULES ev
         /\ lookup "base_control" snapshot
            = fetched_payload ENDPOINT_BASE_CONTROL ev
         /\ lookup "vitals" snapshot
            = match fetched_payload ENDPOINT_VITALS_LEFT ev,
                    fetched_payload ENDPOINT_VITALS_RIGHT ev with
              | Some vitals_left, Some vitals_right =>
                  Some (VDict [("left", vitals_left); ("right", vitals_right)])
              | _, _ => None
              end
         /\ List.length (fetches ENDPOINT_VITALS_RIGHT ev)
            = match fetched_payload ENDPOINT_VITALS_LEFT ev with
              | Some _ => 1%nat
              | None => 0%nat
              end.
Proof.
  cbv zeta. do 3 eexists. split; [vm_compute; reflexivity|].
  eapply (snapshot_holds_what_the_tick_fetched unit
            (steady_get (answer 200 (Ret (VDict [("linkBothSides", VBool true)]))))
            (steady_post (answer 200 (Ret (VDict [("linkBothSides", VBool true)]))))
            "http://pod" {| coordinator := __init__; world := tt |}).
  vm_compute. reflexivity.
Defined.

(** A hub whose settings say that the sides are linked. The first tick
    loads them; the second publishes a snapshot without them, and the
    switch reads off. *)
Lemma loaded_resources_leave_the_snapshot_witness :
  let hub := answer 200 (Ret (VDict [("linkBothSides", VBool true)])) in
  let s1 :=
    snd (run_ticks unit (steady_get hub) (steady_post hub) "http://pod" 1
           {| coordinator := __init__; world := tt |}) in
  let s2 :=
    snd (async_refresh unit (steady_get hub) (steady_post hub) "http://pod"
           {| coordinator := coordinator s1; world := world s1 |}) in
  FreeSleepLinkSidesSwitch_is_on (data (coordinator s1)) = Ret (VBool true)
  /\ _settings_loaded (coordinator s1) = true
  /\ exists snapshot,
       data (coordinator s2) = VDict snapshot
       /\ lookup "settings" snapshot = None
       /\ FreeSleepLinkSidesSwitch_is_on (data (coordinator s2))
          = Ret (VBool false).
Proof.
  cbv zeta.
  set (hub := answer 200 (Ret (VDict [("linkBothSides", VBool true)]))).
  set (s1 := snd (run_ticks unit (steady_get hub) (steady_post hub)
                    "http://pod" 1 {| coordinator := __init__; world := tt |})).
  assert (Hon : FreeSleepLinkSidesSwitch_is_on (data (coordinator s1))
                = Ret (VBool true)) by (vm_compute; reflexivity).
  assert (Hloaded : _settings_loaded (coordinator s1) = true)
    by (vm_compute; reflexivity).
  assert (Hok :
    last_update_success
      (coordinator
         (snd (async_refresh unit (steady_get hub) (steady_post hub)
                 "http://pod"
                 {| coordinator := coordinator s1; world := world s1 |})))
    = true) by (vm_compute; reflexivity).
  split; [exact Hon|]. split; [exact Hloaded|].
  destruct (loaded_resources_leave_the_snapshot unit (steady_get hub)
              (steady_post hub) "http://pod" (coordinator s1) (world s1) Hok)
    as (snapshot & E & S & _).
  exists snapshot. split; [exact E|]. exact (S Hloaded).
Defined.

(** A hub with an adjustable base: the platforms set up after the first
    refresh get no base entity all the same. *)
Lemma first_refresh_sets_up_no_base_entity_witness :
  let hub :=
    answer 200
      (Ret (VDict [("head", VNum (Int 30)); ("feet", VNum (Int 15))])) in
  let s1 :=
    snd (async_refresh unit (steady_get hub) (steady_post hub) "http://pod"
           {| coordinator := __init__; world := tt |}) in
  cover_async_setup_entry (data (coordinator s1)) = Ret []
  /\ number_async_setup_entry (data (coordinator s1))
     = Ret [FreeSleepLEDBrightnessNumber;
            FreeSleepTemperatureNumber SIDE_LEFT;
            FreeSleepTemperatureNumber SIDE_RIGHT].
Proof.
  cbv zeta.
  set (hub := answer 200
                (Ret (VDict [("head", VNum (Int 30)); ("feet", VNum (Int 15))]))).
  assert (Hok :
    last_update_success
      (coordinator
         (snd (async_refresh unit (steady_get hub) (steady_post hub)
                 "http://pod" {| coordinator := __init__; world := tt |})))
    = true) by (vm_compute; reflexivity).
  destruct (first_refresh_sets_up_no_base_entity unit (steady_get hub)
              (steady_post hub) "http://pod" tt Hok) as (C & N & _).
  split; assumption.
Defined.

(** A hub that times out once and answers afterwards: the third tick is
    the second that succeeds, and the one that fetches the base control. *)
Lemma paced_resources_follow_successful_ticks_witness :
  let ok := answer 200 (Ret (VDict [])) in
  let script := [Raise asyncio_TimeoutError; ok; ok; ok; ok; ok] in
  let reports :=
    fst (run_ticks (list (pyres response)) scripted_get scripted_post
           "http://pod" 3 {| coordinator := __init__; world := script |}) in
  let r := nth 2 reports {| events := []; after := __init__ |} in
  nth_error reports 2 = Some r
  /\ successes 3 reports = 2
  /\ last_update_success (after r) = true
  /\ _base_counter (after r) = 0
  /\ List.length (fetches ENDPOINT_BASE_CONTROL (events r)) = 1%nat.
Proof.
  cbv zeta.
  set (script := [Raise asyncio_TimeoutError; answer 200 (Ret (VDict []));
                  answer 200 (Ret (VDict [])); answer 200 (Ret (VDict []));
                  answer 200 (Ret (VDict [])); answer 200 (Ret (VDict []))]).
  set (reports :=
         fst (run_ticks (list (pyres response)) scripted_get scripted_post
                "http://pod" 3 {| coordinator := __init__; world := script |})).
  set (r := nth 2 reports {| events := []; after := __init__ |}).
  assert (Hnth : nth_error reports 2 = Some r) by (vm_compute; reflexivity).
  assert (Hsucc : successes 3 reports = 2) by (vm_compute; reflexivity).
  assert (Hok : last_update_success (after r) = true)
    by (vm_compute; reflexivity).
  split; [exact Hnth|]. split; [exact Hsucc|]. split; [exact Hok|].
  pose proof (paced_resources_follow_successful_ticks (list (pyres response))
                scripted_get scripted_post "http://pod" 3 script 2%nat r Hnth)
    as H.
  cbv zeta in H. fold reports in H. rewrite Hsucc, Hok in H.
  destruct H as (B & _ & F & _). split; [exact B|exact F].
Defined.

(** A base that reports head 20 and feet 5 while moving: stopping posts
    that very position. *)
Lemma stop_resends_the_last_known_position_witness :
  let c :=
    set_data
      (VDict [("device_status", VDict []);
              ("base_control",
               VDict [("head", VNum (Int 20)); ("feet", VNum (Int 5));
                      ("isMoving", VBool true)])])
      __init__ in
  let hub := answer 200 (Ret (VDict [])) in
  writes_then_refreshes unit (steady_get hub) (steady_post hub) "http://pod"
    (FreeSleepStopBaseButton_async_press unit (steady_get hub)
       (steady_post hub) "http://pod")
    {| coordinator := c; world := tt |}
    ENDPOINT_BASE_CONTROL
    (VDict [("head", VNum (Int 20)); ("feet", VNum (Int 5));
            ("feedRate", VNum (Int 50))])
    (fun c => c).
Proof.
  cbv zeta.
  exact (proj1 (proj2 (proj2
           (stop_resends_the_last_known_position unit _ _ "http://pod"
              (set_data
                 (VDict [("device_status", VDict []);
                         ("base_control",
                          VDict [("head", VNum (Int 20));
                                 ("feet", VNum (Int 5));
                                 ("isMoving", VBool true)])])
                 __init__)
              tt
              [("device_status", VDict []);
               ("base_control",
                VDict [("head", VNum (Int 20)); ("feet", VNum (Int 5));
                       ("isMoving", VBool true)])]
              eq_refl)))
           [("head", VNum (Int 20)); ("feet", VNum (Int 5));
            ("isMoving", VBool true)]
           eq_refl ltac:(discriminate)).
Defined.

(** Half way up with the feet at 5: head 30, feet kept. *)
Lemma cover_position_is_a_head_angle_witness :
  let c :=
    set_data
      (VDict [("device_status", VDict []);
              ("base_control",
               VDict [("head", VNum (Int 0)); ("feet", VNum (Int 5))])])
      __init__ in
  let hub := answer 200 (Ret (VDict [])) in
  writes_then_refreshes unit (steady_get hub) (steady_post hub) "http://pod"
    (async_set_cover_position unit (steady_get hub) (steady_post hub)
       "http://pod" (Some (Int 50)))
    {| coordinator := c; world := tt |}
    ENDPOINT_BASE_CONTROL
    (VDict [("head", VNum (Int 30)); ("feet", VNum (Int 5));
            ("feedRate", VNum (Int 50))])
    (fun c => c).
Proof.
  cbv zeta.
  exact (proj1
           (proj1 (proj2
              (cover_position_is_a_head_angle unit _ _ "http://pod"
                 (set_data
                    (VDict [("device_status", VDict []);
                            ("base_control",
                             VDict [("head", VNum (Int 0));
                                    ("feet", VNum (Int 5))])])
                    __init__)
                 tt
                 [("device_status", VDict []);
                  ("base_control",
                   VDict [("head", VNum (Int 0)); ("feet", VNum (Int 5))])]
                 50 eq_refl ltac:(lia)))
              [("head", VNum (Int 0)); ("feet", VNum (Int 5))]
              eq_refl ltac:(discriminate))).
Defined.

(** A hub whose base is raised: after the first tick, which does not ask
    for the base control, the cover reads closed. *)
Lemma paced_entities_fall_back_between_fetches_witness :
  let hub :=
    answer 200
      (Ret (VDict [("head", VNum (Int 30)); ("feet", VNum (Int 15));
                   ("isMoving", VBool true)])) in
  let s1 :=
    snd (async_refresh unit (steady_get hub) (steady_post hub) "http://pod"
           {| coordinator := __init__; world := tt |}) in
  is_closed (data (coordinator s1)) = Ret (VBool true)
  /\ is_opening (data (coordinator s1)) = Ret (VBool false)
  /\ current_cover_position (data (coordinator s1)) = Ret VNone.
Proof.
  cbv zeta.
  set (hub := answer 200
                (Ret (VDict [("head", VNum (Int 30)); ("feet", VNum (Int 15));
                             ("isMoving", VBool true)]))).
  assert (Hok :
    last_update_success
      (coordinator
         (snd (async_refresh unit (steady_get hub) (steady_post hub)
                 "http://pod" {| coordinator := __init__; world := tt |})))
    = true) by (vm_compute; reflexivity).
  destruct (proj2 (paced_entities_fall_back_between_fetches unit
                     (steady_get hub) (steady_post hub) "http://pod"
                     __init__ tt Hok) eq_refl)
    as (A & B & C & _).
  repeat split; assumption.
Defined.

(** Position 99 becomes head 59, which reads back as a position between
    97 and 99. *)
Lemma cover_position_round_trip_witness :
  let d := [("base_control", VDict [("head", VNum (Int 59))])] in
  exists r,
    current_cover_position (VDict d) = Ret (VNum (Int r))
    /\ 99 - 2 <= r <= 99.
Proof.
  cbv zeta.
  exact (proj1
           (cover_position_round_trip 99
              [("base_control", VDict [("head", VNum (Int 59))])]
              [("head", VNum (Int 59))] ltac:(lia) eq_refl)
           eq_refl).
Defined.

(** A side that is on, at 70 with a target of 75. *)
Lemma hvac_action_follows_hvac_mode_witness :
  let data :=
    VDict [("device_status",
            VDict [("left",
                    VDict [("isOn", VBool true);
                           ("currentTemperatureF", VNum (Int 70));
                           ("targetTemperatureF", VNum (Int 75))])])] in
  (hvac_action "left" data = Ret HVACAction_IDLE /\ Z.abs (70 - 75) < 1)
  \/ (hvac_action "left" data = Ret HVACAction_HEATING /\ 70 + 1 <= 75)
  \/ (hvac_action "left" data = Ret HVACAction_COOLING /\ 75 + 1 <= 70).
Proof.
  cbv zeta.
  exact (proj1
           (proj2 (proj2
              (hvac_action_follows_hvac_mode "left"
                 (VDict [("device_status",
                          VDict [("left",
                                  VDict [("isOn", VBool true);
                                         ("currentTemperatureF", VNum (Int 70));
                                         ("targetTemperatureF", VNum (Int 75))])])])))
              [("device_status",
                VDict [("left",
                        VDict [("isOn", VBool true);
                               ("currentTemperatureF", VNum (Int 70));
                               ("targetTemperatureF", VNum (Int 75))])])]
              [("left",
                VDict [("isOn", VBool true);
                       ("currentTemperatureF", VNum (Int 70));
                       ("targetTemperatureF", VNum (Int 75))])]
              [("isOn", VBool true);
               ("currentTemperatureF", VNum (Int 70));
               ("targetTemperatureF", VNum (Int 75))]
              eq_refl eq_refl eq_refl eq_refl)
           70 75 eq_refl eq_refl).
Defined.

(** A hub that answers with an empty object. *)
Lemma sensors_read_missing_data_as_unknown_witness :
  let d := [("device_status", VDict [])] in
  Forall (fun entity_description =>
            native_value entity_description (VDict d) = Ret VNone)
    SENSOR_TYPES
  /\ Forall (fun entity_description =>
               native_value entity_description (VDict d) = Ret (VBool false))
       BINARY_SENSOR_TYPES.
Proof.
  cbv zeta.
  destruct (sensors_read_missing_data_as_unknown
              [("device_status", VDict [])]
              (or_intror eq_refl) (or_introl eq_refl) (or_introl eq_refl))
    as [S B].
  split; apply Forall_forall; assumption.
Defined.

(** A device status that gives the water level as a JSON boolean. *)
Lemma water_level_ok_wants_the_string_witness :
  let d := [("device_status", VDict [("waterLevel", VBool true)])] in
  let entity_description :=
    nth 0 BINARY_SENSOR_TYPES {| key := ""; value_fn := None |} in
  exists on,
    native_value entity_description (VDict d) = Ret (VBool on)
    /\ (on = true <->
        lookup "waterLevel" [("waterLevel", VBool true)]
        = Some (VStr "true")).
Proof.
  cbv zeta.
  exact (proj1
           (water_level_ok_wants_the_string
              [("device_status", VDict [("waterLevel", VBool true)])]
              [("waterLevel", VBool true)]
              (nth 0 BINARY_SENSOR_TYPES {| key := ""; value_fn := None |})
              eq_refl (or_introl eq_refl))
           eq_refl).
Defined.

(** A hub with two answers in store: one GET uses up the first and leaves
    the second. *)
Lemma request_sends_once_witness :
  let first := answer 200 (Ret (VDict [("branch", VStr "main")])) in
  let second := answer 200 (Ret (VDict [])) in
  _request _ scripted_get scripted_post "http://pod" "GET" ENDPOINT_VERSION
    VNone {| coordinator := __init__; world := [first; second] |}
  = (Ret (VDict [("branch", VStr "main")]),
     [Exchange "GET" ENDPOINT_VERSION VNone
        (Ret (VDict [("branch", VStr "main")]))],
     {| coordinator := __init__; world := [second] |}).
Proof.
  cbv zeta.
  rewrite (proj1 (proj2
             (request_sends_once (list (pyres response)) scripted_get
                scripted_post "http://pod" "GET" ENDPOINT_VERSION VNone
                {| coordinator := __init__;
                   world := [answer 200 (Ret (VDict [("branch", VStr "main")]));
                             answer 200 (Ret (VDict []))] |}))).
  reflexivity.
Defined.

(** The two calls of a tick, and one with a time window. *)
Lemma vitals_summary_query_witness :
  async_get_vitals_summary unit (steady_get (answer 200 (Ret VNone)))
    (steady_post (answer 200 (Ret VNone))) "http://pod"
    (Some "left") None None
  = _request unit (steady_get (answer 200 (Ret VNone)))
      (steady_post (answer 200 (Ret VNone))) "http://pod"
      "GET" ENDPOINT_VITALS_LEFT VNone
  /\ async_get_vitals_summary unit (steady_get (answer 200 (Ret VNone)))
       (steady_post (answer 200 (Ret VNone))) "http://pod"
       (Some "left") (Some "2024-01-01") None
     = _request unit (steady_get (answer 200 (Ret VNone)))
         (steady_post (answer 200 (Ret VNone))) "http://pod"
         "GET" "/api/metrics/vitals/summary?side=left&startTime=2024-01-01"
         VNone.
Proof.
  destruct (vitals_summary_query unit (steady_get (answer 200 (Ret VNone)))
              (steady_post (answer 200 (Ret VNone))) "http://pod"
              "left" "2024-01-01" "2024-01-02"
              ltac:(discriminate) ltac:(discriminate) ltac:(discriminate))
    as (_ & A & _ & _ & B & _).
  split; [exact A|exact B].
Defined.
